(** * Hi-Mood-Tracker: the authentication result/error normalisation layer

    A shallow embedding of [src/features/auth/models/auth.repository.ts]
    (the [authRepository] facade) and of the helpers of [auth.types]
    ([mapSupabaseUser], [mapSupabaseSession], [AUTH_ERROR_MESSAGES],
    [createAuthError]), followed by the properties the specification
    states about them.

    Conventions of the embedding:
    - a JavaScript value that may be [undefined], [null] or a proper value
      is a [Nullable]; the three cases are kept apart because the source
      tests them with different operators ([!== null], [!x], [x || 0],
      [x?.f], [if (x)]);
    - a JavaScript string is a [string]; the patterns searched for are
      ASCII, so a byte-wise search agrees with the code-unit search of
      [String.prototype.includes];
    - a plain object used as a dictionary is a [gmap string _];
    - an [async] function is a computation in the monad [Async]: it reads
      and writes the runtime (the state of the outside world the provider
      talks to, and the console) and completes normally or by throwing. *)

From stdpp Require Import base option gmap strings list.
From Stdlib Require Import ZArith.

Open Scope string_scope.

(* ===================================================================== *)
(** ** JavaScript values *)
(* ===================================================================== *)

Inductive Nullable (A : Type) : Type :=
  | js_undefined : Nullable A
  | js_null : Nullable A
  | js_val (a : A) : Nullable A.

Arguments js_undefined {A}.
Arguments js_null {A}.
Arguments js_val {A} a.

(** [x !== null]: strict comparison, so [undefined !== null] holds. *)
Definition strict_ne_null {A} (x : Nullable A) : bool :=
  match x with
  | js_null => false
  | js_undefined | js_val _ => true
  end.

(** Truthiness of a value that is [undefined], [null] or an object:
    every object is truthy. *)
Definition truthy_object {A} (x : Nullable A) : bool :=
  match x with
  | js_val _ => true
  | js_undefined | js_null => false
  end.

(** Truthiness of an integral number: only [0] is falsy. *)
Definition truthy_number (n : Z) : bool := negb (n =? 0)%Z.

(** [x || d] for a numeric [x] that may be absent: the left operand when
    it is truthy, the right one otherwise. *)
Definition or_number (x : Nullable Z) (d : Z) : Z :=
  match x with
  | js_val n => if truthy_number n then n else d
  | js_undefined | js_null => d
  end.

(** [o?.[k]] on a dictionary that may be absent; [None] is [undefined]. *)
Definition optional_get {V} (o : Nullable (gmap string V)) (k : string)
  : option V :=
  match o with
  | js_val m => m !! k
  | js_undefined | js_null => None
  end.

(** [s.includes(searchString)]. *)
Fixpoint includes (s searchString : string) : bool :=
  String.prefix searchString s
  || match s with
     | EmptyString => false
     | String _ s' => includes s' searchString
     end.

(** What "[s] contains [p]" means: [p] occurs as a contiguous block. *)
Definition Contains (s p : string) : Prop :=
  exists before after, s = before +:+ p +:+ after.

(* ===================================================================== *)
(** ** The provider's objects (the parts of [@supabase/supabase-js] read
       by the code) *)
(* ===================================================================== *)

Module SupabaseUser.
Record t : Type := mk {
  id : string;
  email : Nullable string;
  user_metadata : Nullable (gmap string string);
  created_at : string;
  email_confirmed_at : Nullable string;
}.
End SupabaseUser.

Module SupabaseSession.
Record t : Type := mk {
  user : SupabaseUser.t;
  access_token : string;
  refresh_token : string;
  expires_at : Nullable Z;
}.
End SupabaseSession.

(** The error object a completed provider call may report. *)
Module ProviderError.
Record t : Type := mk {
  name : string;
  message : string;
}.
End ProviderError.

(* ===================================================================== *)
(** ** auth.types: the application's own types *)
(* ===================================================================== *)

Module User.
(** [email] is declared [string]; the mapper fills it with
    [supabaseUser.email!], an assertion erased at run time, so the field
    holds whatever the provider object held. *)
Record t : Type := mk {
  id : string;
  email : Nullable string;
  fullName : option string;
  createdAt : string;
  emailVerified : bool;
}.
End User.

Module AuthSession.
Record t : Type := mk {
  user : User.t;
  accessToken : string;
  refreshToken : string;
  expiresAt : Z;
}.
End AuthSession.

Inductive AuthErrorType : Type :=
  | INVALID_CREDENTIALS
  | USER_ALREADY_EXISTS
  | EMAIL_NOT_VERIFIED
  | WEAK_PASSWORD
  | NETWORK_ERROR
  | UNKNOWN_ERROR
  | SESSION_EXPIRED
  | INVALID_TOKEN.

(** The string each member of the [enum] is at run time. *)
Definition AuthErrorType_value (t : AuthErrorType) : string :=
  match t with
  | INVALID_CREDENTIALS => "INVALID_CREDENTIALS"
  | USER_ALREADY_EXISTS => "USER_ALREADY_EXISTS"
  | EMAIL_NOT_VERIFIED => "EMAIL_NOT_VERIFIED"
  | WEAK_PASSWORD => "WEAK_PASSWORD"
  | NETWORK_ERROR => "NETWORK_ERROR"
  | UNKNOWN_ERROR => "UNKNOWN_ERROR"
  | SESSION_EXPIRED => "SESSION_EXPIRED"
  | INVALID_TOKEN => "INVALID_TOKEN"
  end.

Definition all_AuthErrorType : list AuthErrorType :=
  [ INVALID_CREDENTIALS; USER_ALREADY_EXISTS; EMAIL_NOT_VERIFIED;
    WEAK_PASSWORD; NETWORK_ERROR; UNKNOWN_ERROR; SESSION_EXPIRED;
    INVALID_TOKEN ].

Module AuthError.
(** [message] is the result of the property access
    [AUTH_ERROR_MESSAGES[type]]: [None] is the [undefined] a key absent
    from the table would produce. [details] is the optional field. *)
Record t : Type := mk {
  type : AuthErrorType;
  message : option string;
  details : option string;
}.
End AuthError.

Inductive AuthResult (T : Type) : Type :=
  | Success (data : T) : AuthResult T
  | Failure (error : AuthError.t) : AuthResult T.

Arguments Success {T} data.
Arguments Failure {T} error.

Definition mapSupabaseUser (supabaseUser : SupabaseUser.t) : User.t :=
  {| User.id := SupabaseUser.id supabaseUser;
     User.email := SupabaseUser.email supabaseUser;
     User.fullName :=
       optional_get (SupabaseUser.user_metadata supabaseUser) "full_name";
     User.createdAt := SupabaseUser.created_at supabaseUser;
     User.emailVerified :=
       strict_ne_null (SupabaseUser.email_confirmed_at supabaseUser) |}.

Definition mapSupabaseSession (supabaseSession : SupabaseSession.t)
  : AuthSession.t :=
  {| AuthSession.user := mapSupabaseUser (SupabaseSession.user supabaseSession);
     AuthSession.accessToken := SupabaseSession.access_token supabaseSession;
     AuthSession.refreshToken := SupabaseSession.refresh_token supabaseSession;
     AuthSession.expiresAt :=
       or_number (SupabaseSession.expires_at supabaseSession) 0 |}.

(** The object literal, keyed by the members' run-time strings. *)
Definition AUTH_ERROR_MESSAGES : gmap string string :=
  list_to_map
    [ (AuthErrorType_value INVALID_CREDENTIALS,
       "Correo o contraseña incorrectos");
      (AuthErrorType_value USER_ALREADY_EXISTS,
       "Ya existe una cuenta con este correo");
      (AuthErrorType_value EMAIL_NOT_VERIFIED,
       "Por favor verifica tu correo electrónico");
      (AuthErrorType_value WEAK_PASSWORD,
       "La contraseña es demasiado débil");
      (AuthErrorType_value NETWORK_ERROR,
       "Error de conexión. Verifica tu internet");
      (AuthErrorType_value UNKNOWN_ERROR,
       "Ocurrió un error inesperado");
      (AuthErrorType_value SESSION_EXPIRED,
       "Tu sesión ha expirado. Inicia sesión nuevamente");
      (AuthErrorType_value INVALID_TOKEN,
       "El enlace de recuperación es inválido o ha expirado") ].

Definition createAuthError (type : AuthErrorType) (details : option string)
  : AuthError.t :=
  {| AuthError.type := type;
     AuthError.message := AUTH_ERROR_MESSAGES !! AuthErrorType_value type;
     AuthError.details := details |}.

(* ===================================================================== *)
(** ** Asynchronous computations *)
(* ===================================================================== *)

(** A thrown value. *)
Record JsException : Type := mkException {
  exn_name : string;
  exn_message : string;
}.

Inductive Completion (A : Type) : Type :=
  | Normal (a : A) : Completion A
  | Throw (e : JsException) : Completion A.

Arguments Normal {A} a.
Arguments Throw {A} e.

(** What a call can observe and change: the outside world (the provider,
    the network, the cookie store) and the lines written with
    [console.error], most recent first. *)
Record Runtime (World : Type) : Type := mkRuntime {
  world : World;
  console : list (string * JsException);
}.

Arguments mkRuntime {World} world console.
Arguments world {World} _.
Arguments console {World} _.

Definition Async (World A : Type) : Type :=
  Runtime World -> Completion A * Runtime World.

#[global] Instance Async_ret {World} : MRet (Async World) :=
  fun A (a : A) rt => (Normal a, rt).

#[global] Instance Async_bind {World} : MBind (Async World) :=
  fun A B (k : A -> Async World B) (m : Async World A) rt =>
    match m rt with
    | (Normal a, rt') => k a rt'
    | (Throw e, rt') => (Throw e, rt')
    end.

Definition throw {World A} (e : JsException) : Async World A :=
  fun rt => (Throw e, rt).

(** [try { body } catch (error) { handler }] *)
Definition try_catch {World A} (body : Async World A)
    (handler : JsException -> Async World A) : Async World A :=
  fun rt =>
    match body rt with
    | (Normal a, rt') => (Normal a, rt')
    | (Throw e, rt') => handler e rt'
    end.

(** [console.error(label, error)] *)
Definition console_error {World} (label : string) (error : JsException)
  : Async World unit :=
  fun rt => (Normal (), mkRuntime (world rt) ((label, error) :: console rt)).

(* ===================================================================== *)
(** ** The provider's client, as far as the facade calls it *)
(* ===================================================================== *)

(** [{ data, error }], the shape every provider call resolves to. *)
Module Response.
Record t (D : Type) : Type := mk {
  data : D;
  error : Nullable ProviderError.t;
}.
Arguments mk {D} data error.
Arguments data {D} _.
Arguments error {D} _.
End Response.

Module UserData.
Record t : Type := mk { user : Nullable SupabaseUser.t }.
End UserData.

Module SessionData.
Record t : Type := mk { session : Nullable SupabaseSession.t }.
End SessionData.

Module SignInCredentials.
Record t : Type := mk { email : string; password : string }.
End SignInCredentials.

Module SignUpCredentials.
(** [options_data] is the object passed as [options.data]. *)
Record t : Type := mk {
  email : string;
  password : string;
  options_data : gmap string string;
}.
End SignUpCredentials.

Module ResetOptions.
Record t : Type := mk { redirectTo : string }.
End ResetOptions.

Module UserAttributes.
Record t : Type := mk { password : string }.
End UserAttributes.

Module SupabaseAuthClient.
Record t (World : Type) : Type := mk {
  getUser : Async World (Response.t UserData.t);
  getSession : Async World (Response.t SessionData.t);
  signInWithPassword :
    SignInCredentials.t -> Async World (Response.t SessionData.t);
  signUp : SignUpCredentials.t -> Async World (Response.t SessionData.t);
  signOut : Async World (Response.t unit);
  resetPasswordForEmail :
    string -> ResetOptions.t -> Async World (Response.t unit);
  updateUser : UserAttributes.t -> Async World (Response.t UserData.t);
}.
Arguments getUser {World} _.
Arguments getSession {World} _.
Arguments signInWithPassword {World} _.
Arguments signUp {World} _.
Arguments signOut {World} _.
Arguments resetPasswordForEmail {World} _.
Arguments updateUser {World} _.
End SupabaseAuthClient.

Module SupabaseClient.
Record t (World : Type) : Type := mk { auth : SupabaseAuthClient.t World }.
Arguments auth {World} _.
End SupabaseClient.

(** A template literal prints an [undefined] substitution as the word. *)
Definition template_subst (x : option string) : string :=
  default "undefined" x.

(* ===================================================================== *)
(** ** auth.repository: the facade *)
(* ===================================================================== *)

Module authRepository.
Section WithClient.
Context {World : Type}.
(** [createClient] of [@lib/supabase/server]; it reads the cookie store
    and the environment and may itself throw. *)
Variable createClient : Async World (SupabaseClient.t World).
(** [process.env] *)
Variable process_env : gmap string string.

Definition getCurrentUser : Async World (option User.t) :=
  try_catch
    (supabase ← createClient;
     r ← SupabaseAuthClient.getUser (SupabaseClient.auth supabase);
     let user := UserData.user (Response.data r) in
     let error := Response.error r in
     match error, user with
     | (js_undefined | js_null), js_val user =>
         mret (Some (mapSupabaseUser user))
     | _, _ => mret None   (* if (error || !user) return null *)
     end)
    (fun error =>
       _ ← console_error "Error al obtener usuario actual:" error;
       mret None).

Definition getCurrentSession : Async World (option AuthSession.t) :=
  try_catch
    (supabase ← createClient;
     r ← SupabaseAuthClient.getSession (SupabaseClient.auth supabase);
     let session := SessionData.session (Response.data r) in
     let error := Response.error r in
     match error, session with
     | (js_undefined | js_null), js_val session =>
         mret (Some (mapSupabaseSession session))
     | _, _ => mret None   (* if (error || !session) return null *)
     end)
    (fun error =>
       _ ← console_error "Error al obtener sesión actual:" error;
       mret None).

Definition signInWithPassword (email password : string)
  : Async World (AuthResult AuthSession.t) :=
  try_catch
    (supabase ← createClient;
     r ← SupabaseAuthClient.signInWithPassword (SupabaseClient.auth supabase)
           {| SignInCredentials.email := email;
              SignInCredentials.password := password |};
     let data := Response.data r in
     match Response.error r with
     | js_val error =>
         if includes (ProviderError.message error) "Invalid login credentials"
         then mret (Failure (createAuthError INVALID_CREDENTIALS None))
         else if includes (ProviderError.message error) "Email not confirmed"
         then mret (Failure (createAuthError EMAIL_NOT_VERIFIED None))
         else mret (Failure (createAuthError UNKNOWN_ERROR
                               (Some (ProviderError.message error))))
     | js_undefined | js_null =>
         match SessionData.session data with
         | js_val session => mret (Success (mapSupabaseSession session))
         | js_undefined | js_null =>
             mret (Failure (createAuthError UNKNOWN_ERROR None))
         end
     end)
    (fun error =>
       _ ← console_error "Error en signInWithPassword:" error;
       mret (Failure (createAuthError NETWORK_ERROR None))).

Definition signUp (email password fullName : string)
  : Async World (AuthResult AuthSession.t) :=
  try_catch
    (supabase ← createClient;
     r ← SupabaseAuthClient.signUp (SupabaseClient.auth supabase)
           {| SignUpCredentials.email := email;
              SignUpCredentials.password := password;
              SignUpCredentials.options_data :=
                {[ "full_name" := fullName ]} |};
     let data := Response.data r in
     match Response.error r with
     | js_val error =>
         if includes (ProviderError.message error) "User already registered"
         then mret (Failure (createAuthError USER_ALREADY_EXISTS None))
         else if includes (ProviderError.message error) "Password"
         then mret (Failure (createAuthError WEAK_PASSWORD None))
         else mret (Failure (createAuthError UNKNOWN_ERROR
                               (Some (ProviderError.message error))))
     | js_undefined | js_null =>
         match SessionData.session data with
         | js_val session => mret (Success (mapSupabaseSession session))
         | js_undefined | js_null =>
             mret (Failure (createAuthError UNKNOWN_ERROR None))
         end
     end)
    (fun error =>
       _ ← console_error "Error en signUp:" error;
       mret (Failure (createAuthError NETWORK_ERROR None))).

Definition signOut : Async World (AuthResult unit) :=
  try_catch
    (supabase ← createClient;
     r ← SupabaseAuthClient.signOut (SupabaseClient.auth supabase);
     match Response.error r with
     | js_val error =>
         mret (Failure (createAuthError UNKNOWN_ERROR
                          (Some (ProviderError.message error))))
     | js_undefined | js_null => mret (Success ())
     end)
    (fun error =>
       _ ← console_error "Error en signOut:" error;
       mret (Failure (createAuthError NETWORK_ERROR None))).

Definition resetPasswordRequest (email : string)
  : Async World (AuthResult unit) :=
  try_catch
    (supabase ← createClient;
     r ← SupabaseAuthClient.resetPasswordForEmail
           (SupabaseClient.auth supabase) email
           {| ResetOptions.redirectTo :=
                template_subst (process_env !! "NEXT_PUBLIC_APP_URL")
                +:+ "/reset-password" |};
     match Response.error r with
     | js_val error =>
         mret (Failure (createAuthError UNKNOWN_ERROR
                          (Some (ProviderError.message error))))
     | js_undefined | js_null => mret (Success ())
     end)
    (fun error =>
       _ ← console_error "Error en resetPasswordRequest:" error;
       mret (Failure (createAuthError NETWORK_ERROR None))).

Definition updatePassword (newPassword : string)
  : Async World (AuthResult unit) :=
  try_catch
    (supabase ← createClient;
     r ← SupabaseAuthClient.updateUser (SupabaseClient.auth supabase)
           {| UserAttributes.password := newPassword |};
     match Response.error r with
     | js_val error =>
         if includes (ProviderError.message error) "token"
         then mret (Failure (createAuthError INVALID_TOKEN None))
         else mret (Failure (createAuthError UNKNOWN_ERROR
                               (Some (ProviderError.message error))))
     | js_undefined | js_null => mret (Success ())
     end)
    (fun error =>
       _ ← console_error "Error en updatePassword:" error;
       mret (Failure (createAuthError NETWORK_ERROR None))).

End WithClient.
End authRepository.

(* ===================================================================== *)
(** ** Vocabulary of the specification *)
(* ===================================================================== *)

(** The seven use cases of the facade, with their arguments. *)
Inductive Operation : Type :=
  | GetCurrentUser
  | GetCurrentSession
  | SignInWithPassword (email password : string)
  | SignUp (email password fullName : string)
  | SignOut
  | ResetPasswordRequest (email : string)
  | UpdatePassword (newPassword : string).

(** What a caller of the facade receives: the two reads resolve to a value
    or [null] ([None]), the five others to an [AuthResult]. *)
Inductive Returned : Type :=
  | ReturnedUser (u : option User.t)
  | ReturnedSession (s : option AuthSession.t)
  | ReturnedSessionResult (r : AuthResult AuthSession.t)
  | ReturnedVoidResult (r : AuthResult unit).

Definition result_error {T} (r : AuthResult T) : option AuthError.t :=
  match r with
  | Success _ => None
  | Failure e => Some e
  end.

(** The [AuthError] inside a returned value, if that value is
    [{success:false, error}]. *)
Definition returned_error (v : Returned) : option AuthError.t :=
  match v with
  | ReturnedUser _ | ReturnedSession _ => None
  | ReturnedSessionResult r => result_error r
  | ReturnedVoidResult r => result_error r
  end.

(** The label each [catch] block logs under. *)
Definition catch_label (op : Operation) : string :=
  match op with
  | GetCurrentUser => "Error al obtener usuario actual:"
  | GetCurrentSession => "Error al obtener sesión actual:"
  | SignInWithPassword _ _ => "Error en signInWithPassword:"
  | SignUp _ _ _ => "Error en signUp:"
  | SignOut => "Error en signOut:"
  | ResetPasswordRequest _ => "Error en resetPasswordRequest:"
  | UpdatePassword _ => "Error en updatePassword:"
  end.

Definition logged {World} (label : string) (e : JsException)
    (rt : Runtime World) : Runtime World :=
  mkRuntime (world rt) ((label, e) :: console rt).

Section Vocabulary.
Context {World : Type}.
Variable createClient : Async World (SupabaseClient.t World).
Variable process_env : gmap string string.

(** The provider call of an operation: obtaining the client, then the one
    method the operation invokes on it. *)
Definition provider_call {D}
    (method : SupabaseAuthClient.t World -> Async World (Response.t D))
  : Async World (Response.t D) :=
  supabase ← createClient; method (SupabaseClient.auth supabase).

Definition call_getUser := provider_call SupabaseAuthClient.getUser.
Definition call_getSession := provider_call SupabaseAuthClient.getSession.
Definition call_signInWithPassword (email password : string) :=
  provider_call (fun auth =>
    SupabaseAuthClient.signInWithPassword auth
      {| SignInCredentials.email := email;
         SignInCredentials.password := password |}).
Definition call_signUp (email password fullName : string) :=
  provider_call (fun auth =>
    SupabaseAuthClient.signUp auth
      {| SignUpCredentials.email := email;
         SignUpCredentials.password := password;
         SignUpCredentials.options_data := {[ "full_name" := fullName ]} |}).
Definition call_signOut := provider_call SupabaseAuthClient.signOut.
Definition call_resetPasswordForEmail (email : string) :=
  provider_call (fun auth =>
    SupabaseAuthClient.resetPasswordForEmail auth email
      {| ResetOptions.redirectTo :=
           template_subst (process_env !! "NEXT_PUBLIC_APP_URL")
           +:+ "/reset-password" |}).
Definition call_updateUser (newPassword : string) :=
  provider_call (fun auth =>
    SupabaseAuthClient.updateUser auth
      {| UserAttributes.password := newPassword |}).

(** How the provider call of [op] ends when started in [rt], keeping of a
    response only the [error] it reports. *)
Definition provider_outcome (op : Operation) (rt : Runtime World)
  : Completion (Nullable ProviderError.t) * Runtime World :=
  let error_of {D} (c : Completion (Response.t D) * Runtime World) :=
    match c with
    | (Normal r, rt') => (Normal (Response.error r), rt')
    | (Throw e, rt') => (Throw e, rt')
    end in
  match op with
  | GetCurrentUser => error_of (call_getUser rt)
  | GetCurrentSession => error_of (call_getSession rt)
  | SignInWithPassword email password =>
      error_of (call_signInWithPassword email password rt)
  | SignUp email password fullName =>
      error_of (call_signUp email password fullName rt)
  | SignOut => error_of (call_signOut rt)
  | ResetPasswordRequest email =>
      error_of (call_resetPasswordForEmail email rt)
  | UpdatePassword newPassword => error_of (call_updateUser newPassword rt)
  end.

(** Invoking an operation of the facade. *)
Definition invoke (op : Operation) : Async World Returned :=
  match op with
  | GetCurrentUser =>
      u ← authRepository.getCurrentUser createClient; mret (ReturnedUser u)
  | GetCurrentSession =>
      s ← authRepository.getCurrentSession createClient;
      mret (ReturnedSession s)
  | SignInWithPassword email password =>
      r ← authRepository.signInWithPassword createClient email password;
      mret (ReturnedSessionResult r)
  | SignUp email password fullName =>
      r ← authRepository.signUp createClient email password fullName;
      mret (ReturnedSessionResult r)
  | SignOut =>
      r ← authRepository.signOut createClient; mret (ReturnedVoidResult r)
  | ResetPasswordRequest email =>
      r ← authRepository.resetPasswordRequest createClient process_env email;
      mret (ReturnedVoidResult r)
  | UpdatePassword newPassword =>
      r ← authRepository.updatePassword createClient newPassword;
      mret (ReturnedVoidResult r)
  end.

(** The second scenario of the specification read literally, for one
    operation: a throwing provider call makes the operation resolve to
    [{success:false, error:{type:NETWORK_ERROR}}]. *)
Definition network_error_on_throw (op : Operation) : Prop :=
  forall rt e rt',
    provider_outcome op rt = (Throw e, rt') ->
    exists err rt'' v,
      invoke op rt = (Normal v, rt'')
      /\ returned_error v = Some err
      /\ AuthError.type err = NETWORK_ERROR.
End Vocabulary.

(** The failure types each operation has a [createAuthError] call for. *)
Definition failure_types (op : Operation) : list AuthErrorType :=
  match op with
  | GetCurrentUser | GetCurrentSession => []
  | SignInWithPassword _ _ =>
      [INVALID_CREDENTIALS; EMAIL_NOT_VERIFIED; UNKNOWN_ERROR; NETWORK_ERROR]
  | SignUp _ _ _ =>
      [USER_ALREADY_EXISTS; WEAK_PASSWORD; UNKNOWN_ERROR; NETWORK_ERROR]
  | SignOut | ResetPasswordRequest _ => [UNKNOWN_ERROR; NETWORK_ERROR]
  | UpdatePassword _ => [INVALID_TOKEN; UNKNOWN_ERROR; NETWORK_ERROR]
  end.

(* ===================================================================== *)
(** ** A scripted provider, for running the facade on concrete inputs *)
(* ===================================================================== *)

Module Script.
(** A client whose methods ignore their arguments and the world and end
    the way the script says. *)
Definition auth
    (user_reply : Completion (Response.t UserData.t))
    (session_reply : Completion (Response.t SessionData.t))
    (void_reply : Completion (Response.t unit))
  : SupabaseAuthClient.t unit :=
  {| SupabaseAuthClient.getUser := fun rt => (user_reply, rt);
     SupabaseAuthClient.getSession := fun rt => (session_reply, rt);
     SupabaseAuthClient.signInWithPassword := fun _ rt => (session_reply, rt);
     SupabaseAuthClient.signUp := fun _ rt => (session_reply, rt);
     SupabaseAuthClient.signOut := fun rt => (void_reply, rt);
     SupabaseAuthClient.resetPasswordForEmail :=
       fun _ _ rt => (void_reply, rt);
     SupabaseAuthClient.updateUser := fun _ rt => (user_reply, rt) |}.

Definition client user_reply session_reply void_reply
  : Async unit (SupabaseClient.t unit) :=
  mret {| SupabaseClient.auth := auth user_reply session_reply void_reply |}.

Definition fetch_failed : JsException :=
  {| exn_name := "TypeError"; exn_message := "fetch failed" |}.

(** Every call throws. *)
Definition offline : Async unit (SupabaseClient.t unit) :=
  client (Throw fetch_failed) (Throw fetch_failed) (Throw fetch_failed).

Definition api_error (message : string) : ProviderError.t :=
  {| ProviderError.name := "AuthApiError";
     ProviderError.message := message |}.

Definition user_reply (error : Nullable ProviderError.t)
  : Response.t UserData.t :=
  Response.mk {| UserData.user := js_null |} error.
Definition session_reply (error : Nullable ProviderError.t)
  : Response.t SessionData.t :=
  Response.mk {| SessionData.session := js_null |} error.
Definition void_reply (error : Nullable ProviderError.t)
  : Response.t unit :=
  Response.mk () error.

(** Every call completes and reports an error with the given message. *)
Definition failing (message : string) : Async unit (SupabaseClient.t unit) :=
  client (Normal (user_reply (js_val (api_error message))))
         (Normal (session_reply (js_val (api_error message))))
         (Normal (void_reply (js_val (api_error message)))).

(** Every call completes without an error and without a payload. *)
Definition empty : Async unit (SupabaseClient.t unit) :=
  client (Normal (user_reply js_null))
         (Normal (session_reply js_null))
         (Normal (void_reply js_null)).

Definition alice (confirmed_at : Nullable string) : SupabaseUser.t :=
  {| SupabaseUser.id := "7f3c";
     SupabaseUser.email := js_val "alice@unicordoba.edu.co";
     SupabaseUser.user_metadata := js_val {[ "full_name" := "Alice" ]};
     SupabaseUser.created_at := "2025-02-01T10:00:00Z";
     SupabaseUser.email_confirmed_at := confirmed_at |}.

Definition session_of (expires_at : Nullable Z) : SupabaseSession.t :=
  {| SupabaseSession.user := alice (js_val "2025-02-01T10:05:00Z");
     SupabaseSession.access_token := "access";
     SupabaseSession.refresh_token := "refresh";
     SupabaseSession.expires_at := expires_at |}.

(** Every call completes without an error, delivering the given user and
    session. *)
Definition answering_auth (user : Nullable SupabaseUser.t)
    (session : Nullable SupabaseSession.t) : SupabaseAuthClient.t unit :=
  auth (Normal (Response.mk {| UserData.user := user |} js_null))
       (Normal (Response.mk {| SessionData.session := session |} js_null))
       (Normal (void_reply js_null)).

Definition answering (user : Nullable SupabaseUser.t)
    (session : Nullable SupabaseSession.t)
  : Async unit (SupabaseClient.t unit) :=
  mret {| SupabaseClient.auth := answering_auth user session |}.

Definition granted : SupabaseSession.t := session_of (js_val 1767225600%Z).

(** The provider grants a session but knows no current user. *)
Definition granting : Async unit (SupabaseClient.t unit) :=
  answering js_null (js_val granted).

Definition start : Runtime unit := mkRuntime () [].
Definition no_env : gmap string string := ∅.
End Script.

(* ===================================================================== *)
(** ** lib/supabase/middleware: refreshing the session on every request *)
(* ===================================================================== *)

(** [updateSession] builds a provider client around two callbacks that
    close over the request and over the local variable [supabaseResponse],
    awaits [getUser] and returns the variable. The embedding keeps:
    - of the request, its cookies, a map from name to value that
      [request.cookies.set] updates;
    - of a [NextResponse], the request cookies it forwards (those the
      request had when [NextResponse.next({ request })] built it) and its
      own cookies, a map from name to the value and options last set;
    - of the provider client, what it can do to that state: any sequence of
      calls of [getAll] and [setAll] ending in a result or an exception.
    The order of the array [getAll] returns is not kept. *)
Module Middleware.
Section WithOptions.
Context {CookieOptions : Type}.

(** An element of [cookiesToSet]: [{ name, value, options }]. *)
Record CookieToSet : Type := mkCookie {
  name : string;
  value : string;
  options : CookieOptions;
}.

Record NextResponse : Type := mkResponse {
  forwarded : gmap string string;
  cookies : gmap string (string * CookieOptions);
}.

(** [NextResponse.next({ request })] *)
Definition NextResponse_next (request : gmap string string) : NextResponse :=
  {| forwarded := request; cookies := ∅ |}.

(** [response.cookies.set(name, value, options)] *)
Definition response_cookies_set (response : NextResponse)
    (name : string) (value : string) (options : CookieOptions)
  : NextResponse :=
  {| forwarded := forwarded response;
     cookies := <[name := (value, options)]> (cookies response) |}.

(** What the two callbacks close over. *)
Record Scope : Type := mkScope {
  request : gmap string string;
  supabaseResponse : NextResponse;
}.

Definition getAll (scope : Scope) : list (string * string) :=
  map_to_list (request scope).

Definition setAll (cookiesToSet : list CookieToSet) (scope : Scope) : Scope :=
  let request :=
    foldl (fun request c => <[name c := value c]> request)
          (request scope) cookiesToSet in
  let supabaseResponse := NextResponse_next request in
  let supabaseResponse :=
    foldl (fun response c =>
             response_cookies_set response (name c) (value c) (options c))
          supabaseResponse cookiesToSet in
  {| request := request; supabaseResponse := supabaseResponse |}.

(** What the two loops of [setAll] do to a map of request cookies and to
    a map of response cookies. *)
Definition request_after (request : gmap string string)
    (cookiesToSet : list CookieToSet) : gmap string string :=
  foldl (fun request c => <[name c := value c]> request) request cookiesToSet.

Definition jar_after (jar : gmap string (string * CookieOptions))
    (cookiesToSet : list CookieToSet) : gmap string (string * CookieOptions) :=
  foldl (fun jar c => <[name c := (value c, options c)]> jar) jar cookiesToSet.

(** Two facts the callbacks keep about what they close over: the response
    forwards the request's cookies, and its own cookies are on the
    request. *)
Definition consistent (scope : Scope) : Prop :=
  forwarded (supabaseResponse scope) = request scope
  /\ forall n v o,
       cookies (supabaseResponse scope) !! n = Some (v, o) ->
       request scope !! n = Some v.

(** A run of the provider client, seen from the callbacks. *)
Inductive Interaction (R : Type) : Type :=
  | Resolve (r : R)
  | Reject (e : JsException)
  | CallGetAll (k : list (string * string) -> Interaction R)
  | CallSetAll (cookiesToSet : list CookieToSet) (k : Interaction R).

Arguments Resolve {R} r.
Arguments Reject {R} e.
Arguments CallGetAll {R} k.
Arguments CallSetAll {R} cookiesToSet k.

Fixpoint run {R} (i : Interaction R) (scope : Scope)
  : Completion R * Scope :=
  match i with
  | Resolve r => (Normal r, scope)
  | Reject e => (Throw e, scope)
  | CallGetAll k => run (k (getAll scope)) scope
  | CallSetAll cookiesToSet k => run k (setAll cookiesToSet scope)
  end.

(** The arguments of the calls of [setAll] a run makes, in order. *)
Fixpoint setAll_calls {R} (i : Interaction R) (scope : Scope)
  : list (list CookieToSet) :=
  match i with
  | Resolve _ | Reject _ => []
  | CallGetAll k => setAll_calls (k (getAll scope)) scope
  | CallSetAll cookiesToSet k =>
      cookiesToSet :: setAll_calls k (setAll cookiesToSet scope)
  end.

(** [createServerClient(url, key, { cookies })] followed by
    [supabase.auth.getUser()]; the two environment variables may be unset. *)
Variable createServerClient :
  option string -> option string -> Interaction (Response.t UserData.t).
Variable process_env : gmap string string.

Definition client : Interaction (Response.t UserData.t) :=
  createServerClient (process_env !! "NEXT_PUBLIC_SUPABASE_URL")
                     (process_env !! "NEXT_PUBLIC_SUPABASE_ANON_KEY").

(** The result is the completion of the call and the cookies of the
    request object, which the call has updated in place. *)
Definition updateSession (request0 : gmap string string)
  : Completion NextResponse * gmap string string :=
  let scope :=
    {| request := request0; supabaseResponse := NextResponse_next request0 |} in
  match run client scope with
  | (Normal _, scope') => (Normal (supabaseResponse scope'), request scope')
  | (Throw e, scope') => (Throw e, request scope')
  end.

(** The calls of [setAll] made during [updateSession]. *)
Definition refreshes (request0 : gmap string string)
  : list (list CookieToSet) :=
  setAll_calls client
    {| request := request0; supabaseResponse := NextResponse_next request0 |}.

End WithOptions.

Arguments CookieToSet : clear implicits.
Arguments NextResponse : clear implicits.
Arguments Scope : clear implicits.
Arguments Interaction : clear implicits.
Arguments Resolve {CookieOptions R} r.
Arguments Reject {CookieOptions R} e.
Arguments CallGetAll {CookieOptions R} k.
Arguments CallSetAll {CookieOptions R} cookiesToSet k.

(** The default export of the root [middleware] file. *)
Definition middleware {CookieOptions} := @updateSession CookieOptions.

(** A client that reads the cookies, is told twice that the session
    changed, and resolves without a user. *)
Definition refreshing_twice (url key : option string)
  : Interaction string (Response.t UserData.t) :=
  CallGetAll (fun _ =>
    CallSetAll [ mkCookie "sb-access" "t1" "path=/";
                 mkCookie "sb-refresh" "r1" "path=/" ]
      (CallSetAll [ mkCookie "sb-access" "t2" "path=/; secure" ]
         (Resolve (Response.mk {| UserData.user := js_null |} js_null)))).

Definition browser_cookies : gmap string string :=
  {[ "theme" := "dark" ]}.

Definition refreshed_cookies : gmap string string :=
  <["sb-access" := "t2"]>
    (<["sb-refresh" := "r1"]> (<["sb-access" := "t1"]> browser_cookies)).

Definition refreshed_response : NextResponse string :=
  {| forwarded := refreshed_cookies;
     cookies := {[ "sb-access" := ("t2", "path=/; secure") ]} |}.

End Middleware.

(* ===================================================================== *)
(** ** auth.schema: the validation schemas of the forms *)
(* ===================================================================== *)

(** The schemas count characters and match a regular expression, so here a
    JavaScript string is the list of its UTF-16 code units. *)
Definition CodeUnits : Type := list N.

(** The code units of a literal with ASCII characters only. *)
Definition ascii_units (s : string) : CodeUnits :=
  Ascii.N_of_ascii <$> String.list_ascii_of_string s.

(** LineTerminator: LF, CR, LS, PS. *)
Definition is_line_terminator (c : N) : bool :=
  bool_decide (c ∈ [10; 13; 8232; 8233]%N).

(** WhiteSpace or LineTerminator, what [String.prototype.trim] strips. *)
Definition is_trimmed (c : N) : bool :=
  bool_decide (c ∈ [9; 10; 11; 12; 13; 32; 160; 5760; 8232; 8233; 8239; 8287;
                    12288; 65279]%N)
  || ((8192 <=? c) && (c <=? 8202))%N.

Fixpoint trimStart (s : CodeUnits) : CodeUnits :=
  match s with
  | [] => []
  | c :: s' => if is_trimmed c then trimStart s' else s
  end.

Definition trim (s : CodeUnits) : CodeUnits :=
  reverse (trimStart (reverse (trimStart s))).

(** [[a-z]], [[A-Z]] and [\d] without the [i] and [u] flags. *)
Definition lower (c : N) : bool := ((97 <=? c) && (c <=? 122))%N.
Definition upper (c : N) : bool := ((65 <=? c) && (c <=? 90))%N.
Definition digit (c : N) : bool := ((48 <=? c) && (c <=? 57))%N.

(** Matching [.*X] from the start of [s], for a one-character class [X]:
    either [X] matches here, or [.] takes one code unit that is not a line
    terminator and the match goes on. This is the lookahead [(?=.*X)]. *)
Fixpoint ahead (class : N -> bool) (s : CodeUnits) : bool :=
  match s with
  | [] => false
  | c :: s' => class c || (negb (is_line_terminator c) && ahead class s')
  end.

(** [/^(?=.*[a-z])(?=.*[A-Z])(?=.*\d)/.test(s)] *)
Definition password_pattern_test (s : CodeUnits) : bool :=
  ahead lower s && ahead upper s && ahead digit s.


Module VALIDATION_MESSAGES.
Module email.
Definition required := "El correo electrónico es requerido".
Definition invalid := "El correo electrónico no es válido".
End email.
Module password.
Definition required := "La contraseña es requerida".
Definition minLength := "La contraseña debe tener al menos 8 caracteres".
Definition pattern :=
  "La contraseña debe contener al menos una mayúscula, una minúscula y un número".
End password.
Module fullName.
Definition required := "El nombre completo es requerido".
Definition minLength := "El nombre debe tener al menos 3 caracteres".
End fullName.
Module confirmPassword.
Definition required := "Debes confirmar la contraseña".
Definition noMatch := "Las contraseñas no coinciden".
End confirmPassword.
End VALIDATION_MESSAGES.

(** The parts of zod the schemas use. A string schema is a list of checks
    run in order on the current value: a check reports an issue and lets
    the next ones run, [trim] replaces the value. An object schema runs
    the schema of each key in turn and gathers the issues under the key; a
    refinement adds its issue when its predicate fails. [safeParse]
    succeeds when no issue was reported. *)
Module zod.
Record Issue : Type := mkIssue {
  path : list string;
  message : string;
}.

Inductive StringCheck : Type :=
  | min (n : nat) (message : string)
  | email (message : string)
  | regex (test : CodeUnits -> bool) (message : string)
  | trim_.

Inductive SafeParse (T : Type) : Type :=
  | success (data : T)
  | error (issues : list Issue).
Arguments success {T} data.
Arguments error {T} issues.

Section WithEmail.
(** The test zod applies for [.email()]. *)
Variable email_test : CodeUnits -> bool.

Fixpoint string_ (checks : list StringCheck) (data : CodeUnits)
  : CodeUnits * list string :=
  match checks with
  | [] => (data, [])
  | check :: checks =>
      match check with
      | min n message =>
          let (data', issues) := string_ checks data in
          (data', if decide (length data < n) then message :: issues
                  else issues)
      | email message =>
          let (data', issues) := string_ checks data in
          (data', if email_test data then issues else message :: issues)
      | regex test message =>
          let (data', issues) := string_ checks data in
          (data', if test data then issues else message :: issues)
      | trim_ => string_ checks (trim data)
      end
  end.

(** The issues of the value under [key]. *)
Definition at_key (key : string) (parsed : CodeUnits * list string)
  : list Issue :=
  mkIssue [key] <$> parsed.2.

Definition refine {T} (parsed : T * list Issue) (check : T -> bool)
    (message : string) (path : list string) : T * list Issue :=
  (parsed.1,
   if check parsed.1 then parsed.2
   else (parsed.2 ++ [mkIssue path message])%list).

Definition safeParse {T} (parsed : T * list Issue) : SafeParse T :=
  match parsed.2 with
  | [] => success parsed.1
  | issues => error issues
  end.
End WithEmail.
End zod.

Module LoginInput.
Record t : Type := mk { email : CodeUnits; password : CodeUnits }.
End LoginInput.

Module RegisterInput.
Record t : Type := mk {
  fullName : CodeUnits;
  email : CodeUnits;
  password : CodeUnits;
  confirmPassword : CodeUnits;
}.
End RegisterInput.

Module ForgotPasswordInput.
Record t : Type := mk { email : CodeUnits }.
End ForgotPasswordInput.

Module ResetPasswordInput.
Record t : Type := mk { password : CodeUnits; confirmPassword : CodeUnits }.
End ResetPasswordInput.

Module Schema.
Section WithEmail.
Variable email_test : CodeUnits -> bool.

Definition emailSchema : list zod.StringCheck :=
  [ zod.min 1 VALIDATION_MESSAGES.email.required;
    zod.email VALIDATION_MESSAGES.email.invalid ].

Definition passwordSchema : list zod.StringCheck :=
  [ zod.min 8 VALIDATION_MESSAGES.password.minLength;
    zod.regex password_pattern_test VALIDATION_MESSAGES.password.pattern ].

Definition loginSchema (input : LoginInput.t)
  : LoginInput.t * list zod.Issue :=
  let email := zod.string_ email_test emailSchema (LoginInput.email input) in
  let password :=
    zod.string_ email_test
      [zod.min 1 VALIDATION_MESSAGES.password.required]
      (LoginInput.password input) in
  ({| LoginInput.email := email.1; LoginInput.password := password.1 |},
   (zod.at_key "email" email ++ zod.at_key "password" password)%list).

Definition registerSchema (input : RegisterInput.t)
  : RegisterInput.t * list zod.Issue :=
  let fullName :=
    zod.string_ email_test
      [zod.min 3 VALIDATION_MESSAGES.fullName.minLength; zod.trim_]
      (RegisterInput.fullName input) in
  let email := zod.string_ email_test emailSchema (RegisterInput.email input) in
  let password :=
    zod.string_ email_test passwordSchema (RegisterInput.password input) in
  let confirmPassword :=
    zod.string_ email_test
      [zod.min 1 VALIDATION_MESSAGES.confirmPassword.required]
      (RegisterInput.confirmPassword input) in
  zod.refine
    ({| RegisterInput.fullName := fullName.1;
        RegisterInput.email := email.1;
        RegisterInput.password := password.1;
        RegisterInput.confirmPassword := confirmPassword.1 |},
     (zod.at_key "fullName" fullName ++ zod.at_key "email" email
      ++ zod.at_key "password" password
      ++ zod.at_key "confirmPassword" confirmPassword)%list)
    (fun data =>
       bool_decide (RegisterInput.password data
                    = RegisterInput.confirmPassword data))
    VALIDATION_MESSAGES.confirmPassword.noMatch ["confirmPassword"].

Definition forgotPasswordSchema (input : ForgotPasswordInput.t)
  : ForgotPasswordInput.t * list zod.Issue :=
  let email :=
    zod.string_ email_test emailSchema (ForgotPasswordInput.email input) in
  ({| ForgotPasswordInput.email := email.1 |}, zod.at_key "email" email).

Definition resetPasswordSchema (input : ResetPasswordInput.t)
  : ResetPasswordInput.t * list zod.Issue :=
  let password :=
    zod.string_ email_test passwordSchema (ResetPasswordInput.password input) in
  let confirmPassword :=
    zod.string_ email_test
      [zod.min 1 VALIDATION_MESSAGES.confirmPassword.required]
      (ResetPasswordInput.confirmPassword input) in
  zod.refine
    ({| ResetPasswordInput.password := password.1;
        ResetPasswordInput.confirmPassword := confirmPassword.1 |},
     (zod.at_key "password" password
      ++ zod.at_key "confirmPassword" confirmPassword)%list)
    (fun data =>
       bool_decide (ResetPasswordInput.password data
                    = ResetPasswordInput.confirmPassword data))
    VALIDATION_MESSAGES.confirmPassword.noMatch ["confirmPassword"].
End WithEmail.
End Schema.

(* ===================================================================== *)
(** ** lib/supabase/server: the cookie callbacks of the server client *)
(* ===================================================================== *)

Module server.
Section WithStore.
Context {World CookieOptions : Type}.
(** [cookieStore.set(name, value, options)] of [next/headers]; it throws
    where cookies cannot be written, as in a Server Component. *)
Variable cookieStore_set :
  string -> string -> CookieOptions -> Async World unit.

(** [array.forEach(callback)]: the calls in order, an exception ending
    the loop. *)
Fixpoint forEach {A} (array : list A) (callback : A -> Async World unit)
  : Async World unit :=
  match array with
  | [] => mret ()
  | x :: array' => _ ← callback x; forEach array' callback
  end.

(** The [setAll] handed to [createServerClient]. *)
Definition setAll (cookiesToSet : list (Middleware.CookieToSet CookieOptions))
  : Async World unit :=
  try_catch
    (forEach cookiesToSet (fun c =>
       cookieStore_set (Middleware.name c) (Middleware.value c)
         (Middleware.options c)))
    (fun _ => mret ()).
End WithStore.

(** A cookie store that holds names and values and refuses the name
    "readonly". *)
Definition picky_set (name value : string) (options : string)
  : Async (list (string * string)) unit :=
  fun rt =>
    if decide (name = "readonly")
    then (Throw (mkException "Error"
                   "Cookies can only be modified in a Server Action"), rt)
    else (Normal (), mkRuntime ((name, value) :: world rt) (console rt)).
End server.

(** Inputs of the forms, for running the schemas. *)
Module Form.
(** A stand-in for zod's email test: the string contains "@". *)
Definition has_at (s : CodeUnits) : bool := bool_decide (64%N ∈ s).

Definition alice : RegisterInput.t :=
  {| RegisterInput.fullName := ascii_units "Alice Ruiz";
     RegisterInput.email := ascii_units "alice@unicordoba.edu.co";
     RegisterInput.password := ascii_units "Passw0rd";
     RegisterInput.confirmPassword := ascii_units "Passw0rd" |}.

Definition alice_mistyped : RegisterInput.t :=
  {| RegisterInput.fullName := ascii_units "Alice Ruiz";
     RegisterInput.email := ascii_units "alice@unicordoba.edu.co";
     RegisterInput.password := ascii_units "Passw0rd";
     RegisterInput.confirmPassword := ascii_units "Passw0rf" |}.

End Form.

(* ===================================================================== *)
(** ** Substring search *)
(* ===================================================================== *)

Lemma append_nil (q : string) : EmptyString +:+ q = q.
Proof. reflexivity. Qed.

Lemma append_cons (a : Ascii.ascii) (p q : string) :
  String a p +:+ q = String a (p +:+ q).
Proof. reflexivity. Qed.

Lemma prefix_true_iff (p s : string) :
  String.prefix p s = true <-> exists after, s = p +:+ after.
Proof.
  revert s. induction p as [|a p IH]; intros [|b s]; simpl.
  - split; [intros _; by exists EmptyString | done].
  - split; [intros _; by exists (String b s) | done].
  - split; [done | intros [after H]; discriminate].
  - setoid_rewrite append_cons.
    destruct (Ascii.ascii_dec a b) as [->|Hne].
    + rewrite IH. split; intros [after H]; exists after; congruence.
    + split; [done | intros [after H]; congruence].
Qed.

Lemma includes_nil (p : string) :
  includes EmptyString p = String.prefix p EmptyString.
Proof. simpl. apply orb_false_r. Qed.

Lemma includes_cons (c : Ascii.ascii) (s p : string) :
  includes (String c s) p = String.prefix p (String c s) || includes s p.
Proof. reflexivity. Qed.

Lemma includes_Contains (s p : string) :
  includes s p = true <-> Contains s p.
Proof.
  unfold Contains. induction s as [|c s IH].
  - rewrite includes_nil, prefix_true_iff. split.
    + intros [after H]. by exists EmptyString, after.
    + intros ([|? ?] & after & H); [by exists after | discriminate].
  - rewrite includes_cons, orb_true_iff, prefix_true_iff, IH. split.
    + intros [[after H] | (before & after & H)].
      * by exists EmptyString, after.
      * exists (String c before), after. by rewrite append_cons, H.
    + intros ([|c' before] & after & H).
      * left. by exists after.
      * right. exists before, after. rewrite append_cons in H. congruence.
Qed.

Lemma includes_false_iff (s p : string) :
  includes s p = false <-> ~ Contains s p.
Proof.
  rewrite <- includes_Contains. by destruct (includes s p).
Qed.

(* ===================================================================== *)
(** ** Running the facade *)
(* ===================================================================== *)

Section Running.
Context {World : Type}.
Variable createClient : Async World (SupabaseClient.t World).

(** Every operation has the shape
    [try { const supabase = await createClient();
           const r = await supabase.auth.m(..); rest } catch { handler }];
    the two lemmas below run it up to the end of the provider call. *)
Lemma facade_completed {D B}
    (method : SupabaseAuthClient.t World -> Async World (Response.t D))
    (rest : Response.t D -> Async World B)
    (handler : JsException -> Async World B) rt r rt' :
  provider_call createClient method rt = (Normal r, rt') ->
  try_catch
    (supabase ← createClient;
     r ← method (SupabaseClient.auth supabase); rest r) handler rt
  = try_catch (rest r) handler rt'.
Proof.
  unfold provider_call, try_catch, mbind, Async_bind.
  destruct (createClient rt) as [[c|e] rt1]; [|done].
  destruct (method (SupabaseClient.auth c) rt1) as [[r1|e] rt2]; [|done].
  by intros [= -> ->].
Qed.

Lemma facade_thrown {D B}
    (method : SupabaseAuthClient.t World -> Async World (Response.t D))
    (rest : Response.t D -> Async World B)
    (handler : JsException -> Async World B) rt e rt' :
  provider_call createClient method rt = (Throw e, rt') ->
  try_catch
    (supabase ← createClient;
     r ← method (SupabaseClient.auth supabase); rest r) handler rt
  = handler e rt'.
Proof.
  unfold provider_call, try_catch, mbind, Async_bind.
  destruct (createClient rt) as [[c|e1] rt1].
  - destruct (method (SupabaseClient.auth c) rt1) as [[r1|e2] rt2]; [done|].
    by intros [= -> ->].
  - by intros [= -> ->].
Qed.

Lemma try_catch_ret {A} (a : A) (handler : JsException -> Async World A) rt :
  try_catch (mret a) handler rt = (Normal a, rt).
Proof. reflexivity. Qed.

Lemma catch_logs {A} (label : string) (e : JsException) (a : A)
    (rt : Runtime World) :
  (_ ← console_error label e; mret a) rt = (Normal a, logged label e rt).
Proof. reflexivity. Qed.
End Running.

(** Unfold an operation and run it to the end of its provider call, given
    how that call ends. *)
Ltac run_call H :=
  unfold call_getUser, call_getSession, call_signInWithPassword, call_signUp,
    call_signOut, call_resetPasswordForEmail, call_updateUser in H;
  unfold authRepository.getCurrentUser, authRepository.getCurrentSession,
    authRepository.signInWithPassword, authRepository.signUp,
    authRepository.signOut, authRepository.resetPasswordRequest,
    authRepository.updatePassword;
  first [ rewrite (facade_completed _ _ _ _ _ _ _ H)
        | rewrite (facade_thrown _ _ _ _ _ _ _ H); rewrite ?catch_logs ].

(** Close a goal about the failure an operation returned, once the run has
    been reduced to a value. *)
Ltac settle_failure :=
  repeat match goal with
         | |- context [if ?b then _ else _] => destruct b
         end;
  unfold try_catch, mret, Async_ret; simpl; intros; simplify_eq/=;
  split_and!; intros; simplify_eq/=; try done; eauto 6.

(* ===================================================================== *)
(** ** Properties *)
(* ===================================================================== *)

(** *** The mappers and the error table *)

Lemma mapSupabaseUser_emailVerified_iff (supabaseUser : SupabaseUser.t) :
  User.emailVerified (mapSupabaseUser supabaseUser) = true
  <-> SupabaseUser.email_confirmed_at supabaseUser <> js_null.
Proof.
  unfold mapSupabaseUser; simpl.
  by destruct (SupabaseUser.email_confirmed_at supabaseUser).
Qed.

(** C1 (the code departs from the claim). A provider user with an email
    whose confirmation timestamp is missing ([undefined]) is mapped to a
    [User] with [emailVerified = true]: the test [!== null] only tells
    [null] apart, so the "false when the timestamp is missing" half of the
    claim does not hold of [mapSupabaseUser]. With the timestamp [null] the
    result is [false], with a timestamp it is [true]. *)
Theorem mapSupabaseUser_missing_timestamp_verified :
  SupabaseUser.email (Script.alice js_undefined)
    = js_val "alice@unicordoba.edu.co"
  /\ SupabaseUser.email_confirmed_at (Script.alice js_undefined) = js_undefined
  /\ User.emailVerified (mapSupabaseUser (Script.alice js_undefined)) = true
  /\ User.emailVerified (mapSupabaseUser (Script.alice js_null)) = false
  /\ User.emailVerified
       (mapSupabaseUser (Script.alice (js_val "2025-02-01T10:05:00Z"))) = true.
Proof. repeat split. Qed.

Lemma AuthErrorType_enumerated (t : AuthErrorType) : t ∈ all_AuthErrorType.
Proof. destruct t; unfold all_AuthErrorType; set_solver. Qed.

Lemma AuthErrorType_value_inj : Inj (=) (=) AuthErrorType_value.
Proof. intros [] [] H; by try discriminate H. Qed.

(** C7. For each of the eight members of [AuthErrorType] and every
    [details] argument, [createAuthError] returns an error of that type
    whose [message] is the entry the table [AUTH_ERROR_MESSAGES] holds for
    the member (the lookup never misses), that entry is not the empty
    string, and [details] is the argument unchanged. *)
Theorem createAuthError_message_total
    (type : AuthErrorType) (details : option string) :
  AuthError.type (createAuthError type details) = type
  /\ AuthError.details (createAuthError type details) = details
  /\ exists message,
       AUTH_ERROR_MESSAGES !! AuthErrorType_value type = Some message
       /\ AuthError.message (createAuthError type details) = Some message
       /\ message <> EmptyString.
Proof.
  split; [done|]. split; [done|].
  destruct type; eexists; (split; [reflexivity|]); split; done.
Qed.

(** C8. A provider session that carries the expiry [e] is mapped to an
    [AuthSession] whose [expiresAt] is exactly [e]; a provider session
    without an expiry is mapped to [expiresAt = 0]. *)
Theorem mapSupabaseSession_expiresAt (supabaseSession : SupabaseSession.t) :
  (forall e : Z,
     SupabaseSession.expires_at supabaseSession = js_val e ->
     AuthSession.expiresAt (mapSupabaseSession supabaseSession) = e)
  /\ (SupabaseSession.expires_at supabaseSession = js_undefined ->
      AuthSession.expiresAt (mapSupabaseSession supabaseSession) = 0%Z).
Proof.
  unfold mapSupabaseSession; simpl. split.
  - intros e ->. unfold or_number, truthy_number.
    destruct (Z.eqb_spec e 0); simpl; congruence.
  - by intros ->.
Qed.

(** A session expiring on 2026-01-01T00:00:00Z, and one without expiry. *)
Lemma mapSupabaseSession_expiresAt_witness :
  AuthSession.expiresAt
    (mapSupabaseSession (Script.session_of (js_val 1767225600%Z)))
    = 1767225600%Z
  /\ AuthSession.expiresAt (mapSupabaseSession (Script.session_of js_undefined))
     = 0%Z.
Proof.
  split.
  - apply (proj1 (mapSupabaseSession_expiresAt
                    (Script.session_of (js_val 1767225600%Z)))).
    reflexivity.
  - apply (proj2 (mapSupabaseSession_expiresAt
                    (Script.session_of js_undefined))).
    reflexivity.
Defined.

(** *** The facade *)

Section Properties.
Context {World : Type}.
Variable createClient : Async World (SupabaseClient.t World).
Variable process_env : gmap string string.

(** C3. When the provider call of sign-in completes and reports an error,
    the result is a failure chosen by the first pattern its message
    contains: "Invalid login credentials" gives [INVALID_CREDENTIALS]
    with the message "Correo o contraseña incorrectos"; failing that,
    "Email not confirmed" gives [EMAIL_NOT_VERIFIED]; failing both, the
    type is [UNKNOWN_ERROR] and [details] is the provider's message. *)
Theorem signInWithPassword_classifies_error
    (email password : string) rt r rt' (error : ProviderError.t) :
  call_signInWithPassword createClient email password rt = (Normal r, rt') ->
  Response.error r = js_val error ->
  (Contains (ProviderError.message error) "Invalid login credentials" ->
     authRepository.signInWithPassword createClient email password rt
     = (Normal (Failure
          (AuthError.mk INVALID_CREDENTIALS
             (Some "Correo o contraseña incorrectos") None)), rt'))
  /\ (~ Contains (ProviderError.message error) "Invalid login credentials" ->
      Contains (ProviderError.message error) "Email not confirmed" ->
      authRepository.signInWithPassword createClient email password rt
      = (Normal (Failure
           (AuthError.mk EMAIL_NOT_VERIFIED
              (Some "Por favor verifica tu correo electrónico") None)), rt'))
  /\ (~ Contains (ProviderError.message error) "Invalid login credentials" ->
      ~ Contains (ProviderError.message error) "Email not confirmed" ->
      authRepository.signInWithPassword createClient email password rt
      = (Normal (Failure
           (AuthError.mk UNKNOWN_ERROR (Some "Ocurrió un error inesperado")
              (Some (ProviderError.message error)))), rt')).
Proof.
  intros Hcall Herror. run_call Hcall. rewrite Herror.
  repeat split.
  - intros H1%includes_Contains. by rewrite H1.
  - intros H1%includes_false_iff H2%includes_Contains. by rewrite H1, H2.
  - intros H1%includes_false_iff H2%includes_false_iff. by rewrite H1, H2.
Qed.

(** C4. When the provider call of sign-up completes and reports an error,
    the first pattern its message contains decides: "User already
    registered" gives [USER_ALREADY_EXISTS], whether or not the message
    contains "Password" as well; failing that, "Password" gives
    [WEAK_PASSWORD]; failing both, the type is [UNKNOWN_ERROR] and
    [details] is the provider's message. *)
Theorem signUp_classifies_error
    (email password fullName : string) rt r rt' (error : ProviderError.t) :
  call_signUp createClient email password fullName rt = (Normal r, rt') ->
  Response.error r = js_val error ->
  (Contains (ProviderError.message error) "User already registered" ->
     authRepository.signUp createClient email password fullName rt
     = (Normal (Failure
          (AuthError.mk USER_ALREADY_EXISTS
             (Some "Ya existe una cuenta con este correo") None)), rt'))
  /\ (~ Contains (ProviderError.message error) "User already registered" ->
      Contains (ProviderError.message error) "Password" ->
      authRepository.signUp createClient email password fullName rt
      = (Normal (Failure
           (AuthError.mk WEAK_PASSWORD
              (Some "La contraseña es demasiado débil") None)), rt'))
  /\ (~ Contains (ProviderError.message error) "User already registered" ->
      ~ Contains (ProviderError.message error) "Password" ->
      authRepository.signUp createClient email password fullName rt
      = (Normal (Failure
           (AuthError.mk UNKNOWN_ERROR (Some "Ocurrió un error inesperado")
              (Some (ProviderError.message error)))), rt')).
Proof.
  intros Hcall Herror. run_call Hcall. rewrite Herror.
  repeat split.
  - intros H1%includes_Contains. by rewrite H1.
  - intros H1%includes_false_iff H2%includes_Contains. by rewrite H1, H2.
  - intros H1%includes_false_iff H2%includes_false_iff. by rewrite H1, H2.
Qed.

(** C9. When the provider call of update-password completes and reports
    an error, a message containing "token" gives [INVALID_TOKEN]; any
    other message gives [UNKNOWN_ERROR] with the message as [details]. *)
Theorem updatePassword_classifies_error
    (newPassword : string) rt r rt' (error : ProviderError.t) :
  call_updateUser createClient newPassword rt = (Normal r, rt') ->
  Response.error r = js_val error ->
  (Contains (ProviderError.message error) "token" ->
     authRepository.updatePassword createClient newPassword rt
     = (Normal (Failure
          (AuthError.mk INVALID_TOKEN
             (Some "El enlace de recuperación es inválido o ha expirado")
             None)), rt'))
  /\ (~ Contains (ProviderError.message error) "token" ->
      authRepository.updatePassword createClient newPassword rt
      = (Normal (Failure
           (AuthError.mk UNKNOWN_ERROR (Some "Ocurrió un error inesperado")
              (Some (ProviderError.message error)))), rt')).
Proof.
  intros Hcall Herror. run_call Hcall. rewrite Herror.
  split.
  - intros H1%includes_Contains. by rewrite H1.
  - intros H1%includes_false_iff. by rewrite H1.
Qed.

(** C5. When the provider call of sign-in, or of sign-up, completes
    without an error and without a session, the operation returns the
    failure [UNKNOWN_ERROR] (with no [details]), not a success. *)
Theorem missing_session_is_unknown_error
    (email password fullName : string) rt r rt' :
  truthy_object (Response.error r) = false ->
  truthy_object (SessionData.session (Response.data r)) = false ->
  (call_signInWithPassword createClient email password rt = (Normal r, rt') ->
     authRepository.signInWithPassword createClient email password rt
     = (Normal (Failure
          (AuthError.mk UNKNOWN_ERROR (Some "Ocurrió un error inesperado")
             None)), rt'))
  /\ (call_signUp createClient email password fullName rt = (Normal r, rt') ->
      authRepository.signUp createClient email password fullName rt
      = (Normal (Failure
           (AuthError.mk UNKNOWN_ERROR (Some "Ocurrió un error inesperado")
              None)), rt')).
Proof.
  intros Herror Hsession.
  split; intros Hcall; run_call Hcall;
    destruct (Response.error r); try discriminate Herror;
    destruct (SessionData.session (Response.data r));
    try discriminate Hsession; reflexivity.
Qed.

(** C6. [getCurrentUser] and [getCurrentSession] always complete without
    throwing, and they return [null] whenever the provider call reports
    an error or delivers no user (no session), and also when the call
    throws; in particular no user and no error gives [null]. *)
Theorem reads_return_null rt :
  ((exists v rt', authRepository.getCurrentUser createClient rt
                  = (Normal v, rt'))
   /\ (forall r rt',
         call_getUser createClient rt = (Normal r, rt') ->
         truthy_object (Response.error r) = true
         \/ truthy_object (UserData.user (Response.data r)) = false ->
         authRepository.getCurrentUser createClient rt = (Normal None, rt'))
   /\ (forall e rt',
         call_getUser createClient rt = (Throw e, rt') ->
         authRepository.getCurrentUser createClient rt
         = (Normal None, logged "Error al obtener usuario actual:" e rt')))
  /\
  ((exists v rt', authRepository.getCurrentSession createClient rt
                  = (Normal v, rt'))
   /\ (forall r rt',
         call_getSession createClient rt = (Normal r, rt') ->
         truthy_object (Response.error r) = true
         \/ truthy_object (SessionData.session (Response.data r)) = false ->
         authRepository.getCurrentSession createClient rt = (Normal None, rt'))
   /\ (forall e rt',
         call_getSession createClient rt = (Throw e, rt') ->
         authRepository.getCurrentSession createClient rt
         = (Normal None, logged "Error al obtener sesión actual:" e rt'))).
Proof.
  split; split_and!.
  - destruct (call_getUser createClient rt) as [[r|e] rt'] eqn:Hcall;
      run_call Hcall; [|by eauto].
    destruct (Response.error r), (UserData.user (Response.data r));
      by eauto.
  - intros r rt' Hcall H. run_call Hcall.
    destruct (Response.error r), (UserData.user (Response.data r));
      simpl in H; by destruct H.
  - intros e rt' Hcall. by run_call Hcall.
  - destruct (call_getSession createClient rt) as [[r|e] rt'] eqn:Hcall;
      run_call Hcall; [|by eauto].
    destruct (Response.error r), (SessionData.session (Response.data r));
      by eauto.
  - intros r rt' Hcall H. run_call Hcall.
    destruct (Response.error r), (SessionData.session (Response.data r));
      simpl in H; by destruct H.
  - intros e rt' Hcall. by run_call Hcall.
Qed.
(** C2, as the code has it. When the provider call of an operation throws,
    the operation completes normally all the same, having written the
    exception to the console under its own label: sign-in, sign-up,
    sign-out, reset-password-request and update-password return the
    failure [NETWORK_ERROR] with the fixed message and no [details];
    get-current-user and get-current-session return [null]. The returned
    value never carries the exception. *)
Theorem facade_catches_thrown_provider_call (op : Operation) rt e rt' :
  provider_outcome createClient process_env op rt = (Throw e, rt') ->
  invoke createClient process_env op rt
  = (Normal
       match op with
       | GetCurrentUser => ReturnedUser None
       | GetCurrentSession => ReturnedSession None
       | SignInWithPassword _ _ | SignUp _ _ _ =>
           ReturnedSessionResult
             (Failure (AuthError.mk NETWORK_ERROR
                         (Some "Error de conexión. Verifica tu internet")
                         None))
       | SignOut | ResetPasswordRequest _ | UpdatePassword _ =>
           ReturnedVoidResult
             (Failure (AuthError.mk NETWORK_ERROR
                         (Some "Error de conexión. Verifica tu internet")
                         None))
       end,
     logged (catch_label op) e rt').
Proof.
  intros H. destruct op; simpl in H |- *; unfold mbind at 1, Async_bind.
  - destruct (call_getUser _ rt) as [[r|e1] rt1] eqn:Hcall;
      simplify_eq. by run_call Hcall.
  - destruct (call_getSession _ rt) as [[r|e1] rt1] eqn:Hcall;
      simplify_eq. by run_call Hcall.
  - destruct (call_signInWithPassword _ _ _ rt) as [[r|e1] rt1] eqn:Hcall;
      simplify_eq. by run_call Hcall.
  - destruct (call_signUp _ _ _ _ rt) as [[r|e1] rt1] eqn:Hcall;
      simplify_eq. by run_call Hcall.
  - destruct (call_signOut _ rt) as [[r|e1] rt1] eqn:Hcall;
      simplify_eq. by run_call Hcall.
  - destruct (call_resetPasswordForEmail _ _ _ rt) as [[r|e1] rt1] eqn:Hcall;
      simplify_eq. by run_call Hcall.
  - destruct (call_updateUser _ _ rt) as [[r|e1] rt1] eqn:Hcall;
      simplify_eq. by run_call Hcall.
Qed.
(** C10. Whatever operation is invoked, if it returns a failure then:
    its [details] is defined only if its type is [UNKNOWN_ERROR] and the
    provider call completed reporting an error object, and [details] is
    then that object's message; a failure of any other type has no
    [details]; after a throwing provider call the failure is
    [NETWORK_ERROR] without [details]; after a provider call that
    reported no error the failure is the [UNKNOWN_ERROR] of the absent
    payload, without [details]; and an [UNKNOWN_ERROR] returned after a
    reported error carries the reported message. *)
Theorem details_only_for_unclassified_provider_error
    (op : Operation) rt v rt' (err : AuthError.t) :
  invoke createClient process_env op rt = (Normal v, rt') ->
  returned_error v = Some err ->
  (forall d, AuthError.details err = Some d ->
     AuthError.type err = UNKNOWN_ERROR
     /\ exists reported rt1,
          provider_outcome createClient process_env op rt
            = (Normal (js_val reported), rt1)
          /\ d = ProviderError.message reported)
  /\ (AuthError.type err <> UNKNOWN_ERROR -> AuthError.details err = None)
  /\ (forall e rt1,
        provider_outcome createClient process_env op rt = (Throw e, rt1) ->
        AuthError.type err = NETWORK_ERROR /\ AuthError.details err = None)
  /\ (forall reported rt1,
        provider_outcome createClient process_env op rt
          = (Normal reported, rt1) ->
        truthy_object reported = false ->
        AuthError.type err = UNKNOWN_ERROR /\ AuthError.details err = None)
  /\ (forall reported rt1,
        provider_outcome createClient process_env op rt
          = (Normal (js_val reported), rt1) ->
        AuthError.type err = UNKNOWN_ERROR ->
        AuthError.details err = Some (ProviderError.message reported)).
Proof.
  destruct op; simpl; unfold mbind at 1, Async_bind.
  - destruct (authRepository.getCurrentUser _ rt) as [[?|?] ?];
      settle_failure.
  - destruct (authRepository.getCurrentSession _ rt) as [[?|?] ?];
      settle_failure.
  - destruct (call_signInWithPassword _ _ _ rt) as [[r|e1] rt1] eqn:Hcall;
      run_call Hcall; [|settle_failure].
    destruct (Response.error r) as [| |reported];
      [destruct (SessionData.session (Response.data r)); settle_failure ..|].
    settle_failure.
  - destruct (call_signUp _ _ _ _ rt) as [[r|e1] rt1] eqn:Hcall;
      run_call Hcall; [|settle_failure].
    destruct (Response.error r) as [| |reported];
      [destruct (SessionData.session (Response.data r)); settle_failure ..|].
    settle_failure.
  - destruct (call_signOut _ rt) as [[r|e1] rt1] eqn:Hcall;
      run_call Hcall; [|settle_failure].
    destruct (Response.error r) as [| |reported]; settle_failure.
  - destruct (call_resetPasswordForEmail _ _ _ rt) as [[r|e1] rt1] eqn:Hcall;
      run_call Hcall; [|settle_failure].
    destruct (Response.error r) as [| |reported]; settle_failure.
  - destruct (call_updateUser _ _ rt) as [[r|e1] rt1] eqn:Hcall;
      run_call Hcall; [|settle_failure].
    destruct (Response.error r) as [| |reported]; [settle_failure ..|].
    settle_failure.
Qed.
End Properties.

(* ===================================================================== *)
(** ** The properties at concrete inputs *)
(* ===================================================================== *)

(** Sign-in against providers reporting each kind of message. *)
Lemma signInWithPassword_classifies_error_witness :
  authRepository.signInWithPassword
    (Script.failing "Invalid login credentials") "a@b.co" "pw" Script.start
  = (Normal (Failure
       (AuthError.mk INVALID_CREDENTIALS
          (Some "Correo o contraseña incorrectos") None)), Script.start)
  /\ authRepository.signInWithPassword
       (Script.failing "Email not confirmed") "a@b.co" "pw" Script.start
     = (Normal (Failure
          (AuthError.mk EMAIL_NOT_VERIFIED
             (Some "Por favor verifica tu correo electrónico") None)),
        Script.start)
  /\ authRepository.signInWithPassword
       (Script.failing "Database error") "a@b.co" "pw" Script.start
     = (Normal (Failure
          (AuthError.mk UNKNOWN_ERROR (Some "Ocurrió un error inesperado")
             (Some "Database error"))), Script.start).
Proof.
  split_and!.
  - apply (signInWithPassword_classifies_error
             (Script.failing "Invalid login credentials") "a@b.co" "pw"
             Script.start
             (Script.session_reply
                (js_val (Script.api_error "Invalid login credentials")))
             Script.start (Script.api_error "Invalid login credentials")
             eq_refl eq_refl).
    by exists EmptyString, EmptyString.
  - apply (signInWithPassword_classifies_error
             (Script.failing "Email not confirmed") "a@b.co" "pw"
             Script.start
             (Script.session_reply
                (js_val (Script.api_error "Email not confirmed")))
             Script.start (Script.api_error "Email not confirmed")
             eq_refl eq_refl).
    + apply includes_false_iff. reflexivity.
    + by exists EmptyString, EmptyString.
  - apply (signInWithPassword_classifies_error
             (Script.failing "Database error") "a@b.co" "pw"
             Script.start
             (Script.session_reply (js_val (Script.api_error "Database error")))
             Script.start (Script.api_error "Database error")
             eq_refl eq_refl).
    + apply includes_false_iff. reflexivity.
    + apply includes_false_iff. reflexivity.
Defined.

(** Sign-up: a message with both patterns, one with the second only, and
    one with neither. *)
Lemma signUp_classifies_error_witness :
  authRepository.signUp
    (Script.failing "User already registered. Password not changed")
    "a@b.co" "pw" "Alice" Script.start
  = (Normal (Failure
       (AuthError.mk USER_ALREADY_EXISTS
          (Some "Ya existe una cuenta con este correo") None)), Script.start)
  /\ authRepository.signUp
       (Script.failing "Password should be at least 6 characters")
       "a@b.co" "pw" "Alice" Script.start
     = (Normal (Failure
          (AuthError.mk WEAK_PASSWORD
             (Some "La contraseña es demasiado débil") None)), Script.start)
  /\ authRepository.signUp
       (Script.failing "Signups not allowed") "a@b.co" "pw" "Alice"
       Script.start
     = (Normal (Failure
          (AuthError.mk UNKNOWN_ERROR (Some "Ocurrió un error inesperado")
             (Some "Signups not allowed"))), Script.start).
Proof.
  split_and!.
  - apply (signUp_classifies_error
             (Script.failing "User already registered. Password not changed")
             "a@b.co" "pw" "Alice" Script.start
             (Script.session_reply
                (js_val (Script.api_error
                           "User already registered. Password not changed")))
             Script.start
             (Script.api_error "User already registered. Password not changed")
             eq_refl eq_refl).
    by exists EmptyString, ". Password not changed".
  - apply (signUp_classifies_error
             (Script.failing "Password should be at least 6 characters")
             "a@b.co" "pw" "Alice" Script.start
             (Script.session_reply
                (js_val (Script.api_error
                           "Password should be at least 6 characters")))
             Script.start
             (Script.api_error "Password should be at least 6 characters")
             eq_refl eq_refl).
    + apply includes_false_iff. reflexivity.
    + by exists EmptyString, " should be at least 6 characters".
  - apply (signUp_classifies_error
             (Script.failing "Signups not allowed") "a@b.co" "pw" "Alice"
             Script.start
             (Script.session_reply
                (js_val (Script.api_error "Signups not allowed")))
             Script.start (Script.api_error "Signups not allowed")
             eq_refl eq_refl).
    + apply includes_false_iff. reflexivity.
    + apply includes_false_iff. reflexivity.
Defined.

(** Update-password with and without "token" in the message. *)
Lemma updatePassword_classifies_error_witness :
  authRepository.updatePassword
    (Script.failing "Invalid token: expired") "N3wPassw0rd" Script.start
  = (Normal (Failure
       (AuthError.mk INVALID_TOKEN
          (Some "El enlace de recuperación es inválido o ha expirado") None)),
     Script.start)
  /\ authRepository.updatePassword
       (Script.failing "Auth session missing!") "N3wPassw0rd" Script.start
     = (Normal (Failure
          (AuthError.mk UNKNOWN_ERROR (Some "Ocurrió un error inesperado")
             (Some "Auth session missing!"))), Script.start).
Proof.
  split.
  - apply (updatePassword_classifies_error
             (Script.failing "Invalid token: expired") "N3wPassw0rd"
             Script.start
             (Script.user_reply
                (js_val (Script.api_error "Invalid token: expired")))
             Script.start (Script.api_error "Invalid token: expired")
             eq_refl eq_refl).
    by exists "Invalid ", ": expired".
  - apply (updatePassword_classifies_error
             (Script.failing "Auth session missing!") "N3wPassw0rd"
             Script.start
             (Script.user_reply
                (js_val (Script.api_error "Auth session missing!")))
             Script.start (Script.api_error "Auth session missing!")
             eq_refl eq_refl).
    apply includes_false_iff. reflexivity.
Defined.

(** Sign-in and sign-up against a provider that answers with neither an
    error nor a session. *)
Lemma missing_session_is_unknown_error_witness :
  authRepository.signInWithPassword Script.empty "a@b.co" "pw" Script.start
  = (Normal (Failure
       (AuthError.mk UNKNOWN_ERROR (Some "Ocurrió un error inesperado") None)),
     Script.start)
  /\ authRepository.signUp Script.empty "a@b.co" "pw" "Alice" Script.start
     = (Normal (Failure
          (AuthError.mk UNKNOWN_ERROR (Some "Ocurrió un error inesperado")
             None)), Script.start).
Proof.
  destruct (missing_session_is_unknown_error Script.empty
              "a@b.co" "pw" "Alice" Script.start
              (Script.session_reply js_null) Script.start eq_refl eq_refl)
    as [Hin Hup].
  split; [apply Hin | apply Hup]; reflexivity.
Defined.

(** The reads against an empty answer, a reported error and a throwing
    provider. *)
Lemma reads_return_null_witness :
  authRepository.getCurrentUser Script.empty Script.start
  = (Normal None, Script.start)
  /\ authRepository.getCurrentSession (Script.failing "JWT expired")
       Script.start
     = (Normal None, Script.start)
  /\ authRepository.getCurrentUser Script.offline Script.start
     = (Normal None,
        logged "Error al obtener usuario actual:" Script.fetch_failed
          Script.start).
Proof.
  split_and!.
  - apply (proj1 (proj2 (proj1 (reads_return_null Script.empty Script.start)))
             (Script.user_reply js_null) Script.start eq_refl).
    right. reflexivity.
  - apply (proj1 (proj2 (proj2 (reads_return_null
                                  (Script.failing "JWT expired") Script.start)))
             (Script.session_reply (js_val (Script.api_error "JWT expired")))
             Script.start eq_refl).
    left. reflexivity.
  - apply (proj2 (proj2 (proj1 (reads_return_null Script.offline Script.start)))
             Script.fetch_failed Script.start eq_refl).
Defined.

(** Sign-out and get-current-session while every provider call throws. *)
Lemma facade_catches_thrown_provider_call_witness :
  invoke Script.offline Script.no_env SignOut Script.start
  = (Normal (ReturnedVoidResult
       (Failure (AuthError.mk NETWORK_ERROR
                   (Some "Error de conexión. Verifica tu internet") None))),
     logged "Error en signOut:" Script.fetch_failed Script.start)
  /\ invoke Script.offline Script.no_env GetCurrentSession Script.start
     = (Normal (ReturnedSession None),
        logged "Error al obtener sesión actual:" Script.fetch_failed
          Script.start).
Proof.
  split.
  - apply (facade_catches_thrown_provider_call Script.offline Script.no_env
             SignOut Script.start Script.fetch_failed Script.start).
    reflexivity.
  - apply (facade_catches_thrown_provider_call Script.offline Script.no_env
             GetCurrentSession Script.start Script.fetch_failed Script.start).
    reflexivity.
Defined.

(** C2, as the claim states it, fails for the reads: with a provider whose
    every call throws, [getCurrentUser] resolves to [null], which is not a
    [{success:false, error:{type:NETWORK_ERROR}}]. *)
Lemma getCurrentUser_thrown_call_is_not_network_error :
  provider_outcome Script.offline Script.no_env GetCurrentUser Script.start
  = (Throw Script.fetch_failed, Script.start)
  /\ invoke Script.offline Script.no_env GetCurrentUser Script.start
     = (Normal (ReturnedUser None),
        logged "Error al obtener usuario actual:" Script.fetch_failed
          Script.start)
  /\ ~ network_error_on_throw Script.offline Script.no_env GetCurrentUser.
Proof.
  split; [reflexivity|]. split; [reflexivity|].
  intros H.
  destruct (H Script.start Script.fetch_failed Script.start eq_refl)
    as (err & rt'' & v & Hrun & Herr & _).
  vm_compute in Hrun. injection Hrun as <- _. discriminate Herr.
Qed.

(** Sign-out after an unclassified provider error keeps its message;
    update-password after a "token" error drops it. *)
Lemma details_only_for_unclassified_provider_error_witness :
  (exists reported rt1,
     provider_outcome (Script.failing "Database error") Script.no_env
       SignOut Script.start
     = (Normal (js_val reported), rt1)
     /\ "Database error" = ProviderError.message reported)
  /\ AuthError.details (createAuthError INVALID_TOKEN None) = None.
Proof.
  split.
  - apply (proj1 (details_only_for_unclassified_provider_error
             (Script.failing "Database error") Script.no_env SignOut
             Script.start
             (ReturnedVoidResult
                (Failure (createAuthError UNKNOWN_ERROR
                            (Some "Database error"))))
             Script.start
             (createAuthError UNKNOWN_ERROR (Some "Database error"))
             eq_refl eq_refl) "Database error" eq_refl).
  - apply (proj1 (proj2 (details_only_for_unclassified_provider_error
             (Script.failing "token has expired") Script.no_env
             (UpdatePassword "N3wPassw0rd") Script.start
             (ReturnedVoidResult (Failure (createAuthError INVALID_TOKEN None)))
             Script.start (createAuthError INVALID_TOKEN None)
             eq_refl eq_refl))).
    discriminate.
Defined.

(* ===================================================================== *)
(** ** Further behaviour of the facade *)
(* ===================================================================== *)

(** Case analysis on how the provider call of the operation in the goal
    ends, running the operation up to that point. *)
Ltac split_call t :=
  let H := fresh "Hcall" in
  destruct t as [[?|?] ?] eqn:H; run_call H.

Ltac by_provider_call :=
  unfold invoke; unfold mbind at 1, Async_bind;
  match goal with
  | |- context [authRepository.getCurrentUser ?cc ?rt] =>
      split_call (call_getUser cc rt)
  | |- context [authRepository.getCurrentSession ?cc ?rt] =>
      split_call (call_getSession cc rt)
  | |- context [authRepository.signInWithPassword ?cc ?e ?p ?rt] =>
      split_call (call_signInWithPassword cc e p rt)
  | |- context [authRepository.signUp ?cc ?e ?p ?n ?rt] =>
      split_call (call_signUp cc e p n rt)
  | |- context [authRepository.signOut ?cc ?rt] =>
      split_call (call_signOut cc rt)
  | |- context [authRepository.resetPasswordRequest ?cc ?env ?e ?rt] =>
      split_call (call_resetPasswordForEmail cc env e rt)
  | |- context [authRepository.updatePassword ?cc ?p ?rt] =>
      split_call (call_updateUser cc p rt)
  end.

(** Case analysis on the response's [error], payload and the message
    tests, down to a returned value. *)
Ltac by_response :=
  repeat match goal with
         | |- context [match Response.error ?r with _ => _ end] =>
             destruct (Response.error r) eqn:?
         | |- context [match SessionData.session ?d with _ => _ end] =>
             destruct (SessionData.session d) eqn:?
         | |- context [match UserData.user ?d with _ => _ end] =>
             destruct (UserData.user d) eqn:?
         | |- context [if ?b then _ else _] => destruct b eqn:?
         end;
  unfold try_catch, mret, Async_ret; simpl.

Lemma AUTH_ERROR_MESSAGES_entry (type : AuthErrorType) :
  exists message,
    AUTH_ERROR_MESSAGES !! AuthErrorType_value type = Some message
    /\ message <> EmptyString.
Proof. destruct type; eexists; (split; [reflexivity | done]). Qed.

(** Both directions of "the operation returned this value iff the provider
    call ended like that", once the run has been reduced to a value. *)
Ltac use_response_facts :=
  repeat match goal with
         | H : Response.error _ = _ |- _ => rewrite H in *; clear H
         | H : SessionData.session _ = _ |- _ => rewrite H in *; clear H
         | H : UserData.user _ = _ |- _ => rewrite H in *; clear H
         end.

Ltac settle_iff :=
  split;
  [ intros; simplify_eq/=;
    try (eexists _, _; split_and!;
         [ reflexivity
         | match goal with H : Response.error _ = _ |- _ => by rewrite H end
         | eassumption
         | reflexivity ])
  | intros (? & ? & ? & ? & ? & ?); simplify_eq/=;
    use_response_facts; simplify_eq/=; done ].

Section FacadeBehaviour.
Context {World : Type}.
Variable createClient : Async World (SupabaseClient.t World).
Variable process_env : gmap string string.

(** X1. No operation of the facade ever throws: whatever the provider call
    does, the operation completes normally with a value. *)
Theorem facade_never_throws (op : Operation) (rt : Runtime World) :
  exists v rt', invoke createClient process_env op rt = (Normal v, rt').
Proof.
  destruct op; by_provider_call; by_response; eauto.
Qed.

(** X2. The facade has no effect of its own on the world, and it writes to
    the console only in a catch block: after a provider call that completes
    the runtime is the one the call left; after one that throws it is that
    runtime with one console line added, the operation's label and the
    thrown value. *)
Theorem facade_only_logs_thrown_calls (op : Operation) (rt : Runtime World) :
  (invoke createClient process_env op rt).2
  = match provider_outcome createClient process_env op rt with
    | (Normal _, rt1) => rt1
    | (Throw e, rt1) => logged (catch_label op) e rt1
    end.
Proof.
  destruct op; simpl provider_outcome; simpl catch_label;
    by_provider_call; by_response; reflexivity.
Qed.
(** X3. Sign-in, and sign-up, return a success exactly when the provider
    call completed without an error and with a session; the data is then
    that session mapped by [mapSupabaseSession]. *)
Theorem session_success_iff (email password fullName : string)
    (rt : Runtime World) (d : AuthSession.t) (rt' : Runtime World) :
  (authRepository.signInWithPassword createClient email password rt
     = (Normal (Success d), rt')
   <-> exists r session,
         call_signInWithPassword createClient email password rt
           = (Normal r, rt')
         /\ truthy_object (Response.error r) = false
         /\ SessionData.session (Response.data r) = js_val session
         /\ d = mapSupabaseSession session)
  /\ (authRepository.signUp createClient email password fullName rt
        = (Normal (Success d), rt')
      <-> exists r session,
            call_signUp createClient email password fullName rt
              = (Normal r, rt')
            /\ truthy_object (Response.error r) = false
            /\ SessionData.session (Response.data r) = js_val session
            /\ d = mapSupabaseSession session).
Proof.
  split.
  - split_call (call_signInWithPassword createClient email password rt);
      by_response; settle_iff.
  - split_call (call_signUp createClient email password fullName rt);
      by_response; settle_iff.
Qed.
(** X4. The reads return a value other than [null] exactly when the
    provider call completed without an error and with the payload; the
    value is then the payload mapped. *)
Theorem reads_value_iff (rt : Runtime World) (u : User.t) (a : AuthSession.t)
    (rt' : Runtime World) :
  (authRepository.getCurrentUser createClient rt = (Normal (Some u), rt')
   <-> exists r user,
         call_getUser createClient rt = (Normal r, rt')
         /\ truthy_object (Response.error r) = false
         /\ UserData.user (Response.data r) = js_val user
         /\ u = mapSupabaseUser user)
  /\ (authRepository.getCurrentSession createClient rt
        = (Normal (Some a), rt')
      <-> exists r session,
            call_getSession createClient rt = (Normal r, rt')
            /\ truthy_object (Response.error r) = false
            /\ SessionData.session (Response.data r) = js_val session
            /\ a = mapSupabaseSession session).
Proof.
  split.
  - split_call (call_getUser createClient rt); by_response; settle_iff.
  - split_call (call_getSession createClient rt); by_response; settle_iff.
Qed.

(** X5. Sign-out and reset-password-request look at no pattern: once the
    provider call has completed, any reported error, whatever its message,
    gives [UNKNOWN_ERROR] with the message as [details], and no reported
    error gives the success without data. *)
Theorem signOut_reset_outcome (email : string) (rt : Runtime World)
    (r : Response.t unit) (rt' : Runtime World) :
  let outcome : AuthResult unit :=
    match Response.error r with
    | js_val error =>
        Failure
          (AuthError.mk UNKNOWN_ERROR (Some "Ocurrió un error inesperado")
             (Some (ProviderError.message error)))
    | js_undefined | js_null => Success ()
    end in
  (call_signOut createClient rt = (Normal r, rt') ->
     authRepository.signOut createClient rt = (Normal outcome, rt'))
  /\ (call_resetPasswordForEmail createClient process_env email rt
        = (Normal r, rt') ->
      authRepository.resetPasswordRequest createClient process_env email rt
      = (Normal outcome, rt')).
Proof.
  split; intros Hcall; run_call Hcall; by destruct (Response.error r).
Qed.

(** X6. Update-password succeeds as soon as the provider call completes
    without an error: unlike sign-in and sign-up it does not look at the
    payload, so a response without a user is a success too. *)
Theorem updatePassword_success_ignores_payload (newPassword : string)
    (rt : Runtime World) (r : Response.t UserData.t) (rt' : Runtime World) :
  call_updateUser createClient newPassword rt = (Normal r, rt') ->
  truthy_object (Response.error r) = false ->
  authRepository.updatePassword createClient newPassword rt
  = (Normal (Success ()), rt').
Proof.
  intros Hcall Herror. run_call Hcall.
  by destruct (Response.error r).
Qed.

(** X7. A failure returned by an operation has one of the types the
    operation has a branch for; in particular no operation ever returns
    [SESSION_EXPIRED], sign-out and reset-password-request only return
    [UNKNOWN_ERROR] or [NETWORK_ERROR], and the reads return no failure. *)
Theorem failure_type_of_operation (op : Operation) (rt : Runtime World)
    (v : Returned) (rt' : Runtime World) (err : AuthError.t) :
  invoke createClient process_env op rt = (Normal v, rt') ->
  returned_error v = Some err ->
  AuthError.type err ∈ failure_types op
  /\ AuthError.type err <> SESSION_EXPIRED.
Proof.
  destruct op; by_provider_call; by_response;
    intros; simplify_eq/=; (split; [set_solver | done]).
Qed.

(** X8. The message of every failure an operation returns is the entry of
    [AUTH_ERROR_MESSAGES] for the failure's type, hence fixed by the type
    alone and not empty: no text of the provider reaches [message]. *)
Theorem failure_message_from_table (op : Operation) (rt : Runtime World)
    (v : Returned) (rt' : Runtime World) (err : AuthError.t) :
  invoke createClient process_env op rt = (Normal v, rt') ->
  returned_error v = Some err ->
  err = createAuthError (AuthError.type err) (AuthError.details err)
  /\ exists message,
       AuthError.message err = Some message /\ message <> EmptyString.
Proof.
  intros Hrun Herr.
  assert (err = createAuthError (AuthError.type err) (AuthError.details err))
    as Heq.
  { revert Hrun Herr.
    destruct op; by_provider_call; by_response; intros; by simplify_eq/=. }
  split; [done|]. rewrite Heq. simpl.
  destruct (AUTH_ERROR_MESSAGES_entry (AuthError.type err)) as (m & ? & ?).
  by exists m.
Qed.

(** X9. Reset-password-request hands the provider the caller's email and
    the redirect address built from the environment variable
    [NEXT_PUBLIC_APP_URL] followed by "/reset-password"; when the variable
    is not set the address is the literal "undefined/reset-password". The
    outcome is the one of the provider's method on exactly these
    arguments. *)
Theorem resetPasswordRequest_redirect (email : string) (rt : Runtime World)
    (c : SupabaseClient.t World) (rt1 : Runtime World)
    (r : Response.t unit) (rt2 : Runtime World) :
  let redirectTo :=
    match process_env !! "NEXT_PUBLIC_APP_URL" with
    | Some url => url +:+ "/reset-password"
    | None => "undefined/reset-password"
    end in
  createClient rt = (Normal c, rt1) ->
  SupabaseAuthClient.resetPasswordForEmail (SupabaseClient.auth c) email
    {| ResetOptions.redirectTo := redirectTo |} rt1 = (Normal r, rt2) ->
  truthy_object (Response.error r) = false ->
  authRepository.resetPasswordRequest createClient process_env email rt
  = (Normal (Success ()), rt2).
Proof.
  intros redirectTo Hclient Hmethod Herror.
  assert (call_resetPasswordForEmail createClient process_env email rt
          = (Normal r, rt2)) as Hcall.
  { unfold call_resetPasswordForEmail, provider_call, mbind, Async_bind.
    rewrite Hclient. unfold template_subst.
    subst redirectTo. by destruct (process_env !! "NEXT_PUBLIC_APP_URL"). }
  run_call Hcall. by destruct (Response.error r).
Qed.

(** X10. The name given at sign-up comes back as [fullName]: sign-up stores
    it under the metadata key "full_name", the key [mapSupabaseUser] reads.
    If the provider answers the sign-up with a session whose user carries
    the metadata it was handed, the result is that session mapped, with
    [fullName] the name passed in. *)
Theorem signUp_fullName_round_trip (email password fullName : string)
    (rt : Runtime World) (c : SupabaseClient.t World) (rt1 : Runtime World)
    (r : Response.t SessionData.t) (rt2 : Runtime World)
    (session : SupabaseSession.t) :
  let credentials :=
    {| SignUpCredentials.email := email;
       SignUpCredentials.password := password;
       SignUpCredentials.options_data := {[ "full_name" := fullName ]} |} in
  createClient rt = (Normal c, rt1) ->
  SupabaseAuthClient.signUp (SupabaseClient.auth c) credentials rt1
    = (Normal r, rt2) ->
  truthy_object (Response.error r) = false ->
  SessionData.session (Response.data r) = js_val session ->
  SupabaseUser.user_metadata (SupabaseSession.user session)
    = js_val (SignUpCredentials.options_data credentials) ->
  authRepository.signUp createClient email password fullName rt
    = (Normal (Success (mapSupabaseSession session)), rt2)
  /\ User.fullName (AuthSession.user (mapSupabaseSession session))
     = Some fullName.
Proof.
  intros credentials Hclient Hmethod Herror Hsession Hmeta.
  assert (call_signUp createClient email password fullName rt
          = (Normal r, rt2)) as Hcall.
  { unfold call_signUp, provider_call, mbind, Async_bind.
    by rewrite Hclient. }
  split.
  - run_call Hcall. rewrite Hsession. by destruct (Response.error r).
  - simpl. rewrite Hmeta. simpl. apply lookup_singleton_eq.
Qed.
End FacadeBehaviour.

(** X11. [expiresAt] is [0] exactly when the provider session has no expiry
    ([undefined] or [null]) or has the expiry [0]: the mapped session does
    not tell an omitted expiry from the epoch. *)
Theorem mapSupabaseSession_expiresAt_zero_iff
    (supabaseSession : SupabaseSession.t) :
  AuthSession.expiresAt (mapSupabaseSession supabaseSession) = 0%Z
  <-> SupabaseSession.expires_at supabaseSession = js_undefined
      \/ SupabaseSession.expires_at supabaseSession = js_null
      \/ SupabaseSession.expires_at supabaseSession = js_val 0%Z.
Proof.
  unfold mapSupabaseSession, or_number, truthy_number; simpl.
  destruct (SupabaseSession.expires_at supabaseSession) as [| |e].
  - split; [intros _; by left | done].
  - split; [intros _; by right; left | done].
  - destruct (Z.eqb_spec e 0) as [->|Hne]; simpl.
    + split; [intros _; by right; right | done].
    + split; [done | by intros [|[|[= ->]]]].
Qed.

(** X12. The message table has exactly eight entries, and the messages of
    different error types are different: the message of an error created
    by [createAuthError] identifies its type. *)
Theorem createAuthError_message_identifies_type
    (type1 type2 : AuthErrorType) (details1 details2 : option string) :
  size AUTH_ERROR_MESSAGES = 8
  /\ (AuthError.message (createAuthError type1 details1)
        = AuthError.message (createAuthError type2 details2) ->
      type1 = type2).
Proof.
  split; [reflexivity|].
  destruct type1, type2; simpl; intros H; vm_compute in H;
    first [reflexivity | discriminate H].
Qed.

(* ===================================================================== *)
(** ** The session-refreshing middleware *)
(* ===================================================================== *)

Section MiddlewareBehaviour.
Context {CookieOptions : Type}.
Implicit Types (cs : list (Middleware.CookieToSet CookieOptions)).
Implicit Types (scope : Middleware.Scope CookieOptions).

Lemma response_loop_cookies (response : Middleware.NextResponse CookieOptions)
    cs :
  Middleware.cookies
    (foldl (fun response c =>
              Middleware.response_cookies_set response (Middleware.name c)
                (Middleware.value c) (Middleware.options c)) response cs)
  = Middleware.jar_after (Middleware.cookies response) cs.
Proof.
  revert response. induction cs as [|c cs IH]; intros response; [done|].
  simpl. by rewrite IH.
Qed.

Lemma response_loop_forwarded
    (response : Middleware.NextResponse CookieOptions) cs :
  Middleware.forwarded
    (foldl (fun response c =>
              Middleware.response_cookies_set response (Middleware.name c)
                (Middleware.value c) (Middleware.options c)) response cs)
  = Middleware.forwarded response.
Proof.
  revert response. induction cs as [|c cs IH]; intros response; [done|].
  simpl. by rewrite IH.
Qed.

Lemma setAll_request cs scope :
  Middleware.request (Middleware.setAll cs scope)
  = Middleware.request_after (Middleware.request scope) cs.
Proof. reflexivity. Qed.

Lemma setAll_cookies cs scope :
  Middleware.cookies (Middleware.supabaseResponse (Middleware.setAll cs scope))
  = Middleware.jar_after ∅ cs.
Proof. unfold Middleware.setAll; simpl. by rewrite response_loop_cookies. Qed.

Lemma setAll_forwarded cs scope :
  Middleware.forwarded
    (Middleware.supabaseResponse (Middleware.setAll cs scope))
  = Middleware.request_after (Middleware.request scope) cs.
Proof. unfold Middleware.setAll; simpl. by rewrite response_loop_forwarded. Qed.

Lemma jar_on_request cs (request : gmap string string) n v o :
  Middleware.jar_after ∅ cs !! n = Some (v, o) ->
  Middleware.request_after request cs !! n = Some v.
Proof.
  unfold Middleware.jar_after, Middleware.request_after.
  induction cs as [|c cs IH] using rev_ind; [done|].
  rewrite !foldl_app; simpl.
  destruct (decide (Middleware.name c = n)) as [->|Hne].
  - rewrite !lookup_insert_eq. by intros [= -> _].
  - rewrite !lookup_insert_ne by done. apply IH.
Qed.

Lemma setAll_consistent cs scope :
  Middleware.consistent (Middleware.setAll cs scope).
Proof.
  split.
  - by rewrite setAll_forwarded, setAll_request.
  - intros n v o. rewrite setAll_cookies, setAll_request. apply jar_on_request.
Qed.

Lemma run_consistent {R} (i : Middleware.Interaction CookieOptions R) scope :
  Middleware.consistent scope ->
  Middleware.consistent (Middleware.run i scope).2.
Proof.
  revert scope. induction i as [r|e|k IH|cs k IH]; intros scope Hscope; simpl.
  - done.
  - done.
  - by apply IH.
  - apply IH, setAll_consistent.
Qed.

Lemma run_request {R} (i : Middleware.Interaction CookieOptions R) scope :
  Middleware.request (Middleware.run i scope).2
  = Middleware.request_after (Middleware.request scope)
      (concat (Middleware.setAll_calls i scope)).
Proof.
  revert scope. induction i as [r|e|k IH|cs k IH]; intros scope; simpl.
  - done.
  - done.
  - apply IH.
  - rewrite IH, setAll_request. unfold Middleware.request_after.
    by rewrite foldl_app.
Qed.

Lemma run_cookies {R} (i : Middleware.Interaction CookieOptions R) scope :
  Middleware.cookies (Middleware.supabaseResponse (Middleware.run i scope).2)
  = match last (Middleware.setAll_calls i scope) with
    | Some cs => Middleware.jar_after ∅ cs
    | None => Middleware.cookies (Middleware.supabaseResponse scope)
    end.
Proof.
  revert scope. induction i as [r|e|k IH|cs k IH]; intros scope; simpl.
  - done.
  - done.
  - apply IH.
  - rewrite IH, last_cons, setAll_cookies.
    by destruct (last (Middleware.setAll_calls k (Middleware.setAll cs scope))).
Qed.

Variable createServerClient :
  option string -> option string ->
  Middleware.Interaction CookieOptions (Response.t UserData.t).
Variable process_env : gmap string string.

(** X13. The response [updateSession] returns forwards the cookies of the
    request as they are when it returns, whatever calls of [setAll] the
    provider client made. *)
Theorem updateSession_forwards_request_cookies
    (request0 : gmap string string)
    (response : Middleware.NextResponse CookieOptions)
    (request' : gmap string string) :
  Middleware.updateSession createServerClient process_env request0
    = (Normal response, request') ->
  Middleware.forwarded response = request'.
Proof.
  unfold Middleware.updateSession.
  set (scope := Middleware.mkScope _ _).
  pose proof (run_consistent (Middleware.client createServerClient process_env)
                scope) as Hrun.
  destruct (Middleware.run _ scope) as [[r|e] scope']; intros [= <- <-].
  apply Hrun. by split.
Qed.

(** X14. Every cookie on the returned response is also on the request,
    with the same value. *)
Theorem updateSession_response_cookies_on_request
    (request0 : gmap string string)
    (response : Middleware.NextResponse CookieOptions)
    (request' : gmap string string) (n v : string) (o : CookieOptions) :
  Middleware.updateSession createServerClient process_env request0
    = (Normal response, request') ->
  Middleware.cookies response !! n = Some (v, o) ->
  request' !! n = Some v.
Proof.
  unfold Middleware.updateSession.
  set (scope := Middleware.mkScope _ _).
  pose proof (run_consistent (Middleware.client createServerClient process_env)
                scope) as Hrun.
  destruct (Middleware.run _ scope) as [[r|e] scope']; intros [= <- <-].
  apply Hrun. by split.
Qed.

(** X15. The returned response carries the cookies of the last call of
    [setAll] only, each name with the value and options of its last
    occurrence in that call; what earlier calls had set on the response is
    gone, and without any call the response has no cookie. *)
Theorem updateSession_response_cookies_of_last_refresh
    (request0 : gmap string string)
    (response : Middleware.NextResponse CookieOptions)
    (request' : gmap string string) :
  Middleware.updateSession createServerClient process_env request0
    = (Normal response, request') ->
  Middleware.cookies response
  = Middleware.jar_after ∅
      (default []
         (last (Middleware.refreshes createServerClient process_env request0))).
Proof.
  unfold Middleware.updateSession, Middleware.refreshes.
  set (scope := Middleware.mkScope _ _).
  pose proof (run_cookies (Middleware.client createServerClient process_env)
                scope) as Hrun.
  destruct (Middleware.run _ scope) as [[r|e] scope']; intros [= <- <-].
  simpl in Hrun. rewrite Hrun. by destruct (last _).
Qed.

(** X16. Whether the provider client resolves or rejects, the request ends
    with its original cookies overwritten by those of every call of
    [setAll], in the order of the calls; without any call it is
    unchanged. *)
Theorem updateSession_request_cookies (request0 : gmap string string) :
  (Middleware.updateSession createServerClient process_env request0).2
  = Middleware.request_after request0
      (concat (Middleware.refreshes createServerClient process_env request0)).
Proof.
  unfold Middleware.updateSession, Middleware.refreshes.
  set (scope := Middleware.mkScope _ _).
  pose proof (run_request (Middleware.client createServerClient process_env)
                scope) as Hrun.
  by destruct (Middleware.run _ scope) as [[r|e] scope'].
Qed.
End MiddlewareBehaviour.

(** The middleware with a client that signals two refreshes. *)
Lemma updateSession_forwards_request_cookies_witness :
  Middleware.forwarded Middleware.refreshed_response
  = Middleware.refreshed_cookies.
Proof.
  apply (updateSession_forwards_request_cookies Middleware.refreshing_twice ∅
           Middleware.browser_cookies).
  vm_compute. reflexivity.
Defined.

Lemma updateSession_response_cookies_on_request_witness :
  Middleware.refreshed_cookies !! "sb-access" = Some "t2".
Proof.
  apply (updateSession_response_cookies_on_request
           Middleware.refreshing_twice ∅ Middleware.browser_cookies
           Middleware.refreshed_response Middleware.refreshed_cookies
           "sb-access" "t2" "path=/; secure").
  - vm_compute. reflexivity.
  - reflexivity.
Defined.

Lemma updateSession_response_cookies_of_last_refresh_witness :
  Middleware.cookies Middleware.refreshed_response
  = Middleware.jar_after ∅
      (default []
         (last (Middleware.refreshes Middleware.refreshing_twice ∅
                  Middleware.browser_cookies)))
  /\ Middleware.cookies Middleware.refreshed_response !! "sb-refresh" = None
  /\ Middleware.refreshed_cookies !! "sb-refresh" = Some "r1".
Proof.
  split; [|by split].
  apply (updateSession_response_cookies_of_last_refresh
           Middleware.refreshing_twice ∅ Middleware.browser_cookies
           Middleware.refreshed_response Middleware.refreshed_cookies).
  vm_compute. reflexivity.
Defined.

(** Sign-in and sign-up against a provider that grants a session. *)
Lemma session_success_iff_witness :
  authRepository.signInWithPassword Script.granting "a@b.co" "pw" Script.start
  = (Normal (Success (mapSupabaseSession Script.granted)), Script.start)
  /\ authRepository.signUp Script.granting "a@b.co" "pw" "Alice" Script.start
     = (Normal (Success (mapSupabaseSession Script.granted)), Script.start).
Proof.
  destruct (session_success_iff Script.granting "a@b.co" "pw" "Alice"
              Script.start (mapSupabaseSession Script.granted) Script.start)
    as [Hin Hup].
  split.
  - apply Hin.
    exists (Response.mk {| SessionData.session := js_val Script.granted |}
              js_null), Script.granted.
    by split_and!.
  - apply Hup.
    exists (Response.mk {| SessionData.session := js_val Script.granted |}
              js_null), Script.granted.
    by split_and!.
Defined.

(** The reads against a provider that has a session but no user. *)
Lemma reads_value_iff_witness :
  authRepository.getCurrentSession Script.granting Script.start
  = (Normal (Some (mapSupabaseSession Script.granted)), Script.start)
  /\ authRepository.getCurrentUser Script.granting Script.start
     <> (Normal (Some (mapSupabaseUser (Script.alice js_null))), Script.start).
Proof.
  destruct (reads_value_iff Script.granting Script.start
              (mapSupabaseUser (Script.alice js_null))
              (mapSupabaseSession Script.granted) Script.start)
    as [Huser Hsession].
  split.
  - apply Hsession.
    exists (Response.mk {| SessionData.session := js_val Script.granted |}
              js_null), Script.granted.
    by split_and!.
  - intros Hrun. apply Huser in Hrun as (r & user & Hcall & _ & Hpayload & _).
    injection Hcall as <-. discriminate Hpayload.
Defined.

(** Sign-out and reset-password-request after a message that sign-in would
    classify, and sign-out without an error. *)
Lemma signOut_reset_outcome_witness :
  authRepository.signOut (Script.failing "Invalid login credentials")
    Script.start
  = (Normal (Failure
       (AuthError.mk UNKNOWN_ERROR (Some "Ocurrió un error inesperado")
          (Some "Invalid login credentials"))), Script.start)
  /\ authRepository.resetPasswordRequest
       (Script.failing "Invalid login credentials") Script.no_env "a@b.co"
       Script.start
     = (Normal (Failure
          (AuthError.mk UNKNOWN_ERROR (Some "Ocurrió un error inesperado")
             (Some "Invalid login credentials"))), Script.start)
  /\ authRepository.signOut Script.empty Script.start
     = (Normal (Success ()), Script.start).
Proof.
  split_and!.
  - apply (proj1 (signOut_reset_outcome
                    (Script.failing "Invalid login credentials") Script.no_env
                    "a@b.co" Script.start
                    (Script.void_reply
                       (js_val (Script.api_error "Invalid login credentials")))
                    Script.start)).
    reflexivity.
  - apply (proj2 (signOut_reset_outcome
                    (Script.failing "Invalid login credentials") Script.no_env
                    "a@b.co" Script.start
                    (Script.void_reply
                       (js_val (Script.api_error "Invalid login credentials")))
                    Script.start)).
    reflexivity.
  - apply (proj1 (signOut_reset_outcome Script.empty Script.no_env "a@b.co"
                    Script.start (Script.void_reply js_null) Script.start)).
    reflexivity.
Defined.

(** Update-password answered without an error and without a user. *)
Lemma updatePassword_success_ignores_payload_witness :
  authRepository.updatePassword Script.empty "N3wPassw0rd" Script.start
  = (Normal (Success ()), Script.start).
Proof.
  apply (updatePassword_success_ignores_payload Script.empty "N3wPassw0rd"
           Script.start (Script.user_reply js_null) Script.start);
    reflexivity.
Defined.

(** The failure of an update-password answered with a "token" error. *)
Lemma failure_type_of_operation_witness :
  INVALID_TOKEN ∈ failure_types (UpdatePassword "N3wPassw0rd")
  /\ INVALID_TOKEN <> SESSION_EXPIRED.
Proof.
  apply (failure_type_of_operation (Script.failing "token has expired")
           Script.no_env (UpdatePassword "N3wPassw0rd") Script.start
           (ReturnedVoidResult (Failure (createAuthError INVALID_TOKEN None)))
           Script.start (createAuthError INVALID_TOKEN None));
    reflexivity.
Defined.

(** The failure of a sign-out answered with an error. *)
Lemma failure_message_from_table_witness :
  exists message,
    AuthError.message (createAuthError UNKNOWN_ERROR (Some "Database error"))
      = Some message
    /\ message <> EmptyString.
Proof.
  apply (failure_message_from_table (Script.failing "Database error")
           Script.no_env SignOut Script.start
           (ReturnedVoidResult
              (Failure (createAuthError UNKNOWN_ERROR (Some "Database error"))))
           Script.start
           (createAuthError UNKNOWN_ERROR (Some "Database error")));
    reflexivity.
Defined.

(** Reset-password-request with [NEXT_PUBLIC_APP_URL] unset. *)
Lemma resetPasswordRequest_redirect_witness :
  authRepository.resetPasswordRequest Script.empty Script.no_env "a@b.co"
    Script.start
  = (Normal (Success ()), Script.start).
Proof.
  apply (resetPasswordRequest_redirect Script.empty Script.no_env "a@b.co"
           Script.start
           {| SupabaseClient.auth :=
                Script.auth (Normal (Script.user_reply js_null))
                  (Normal (Script.session_reply js_null))
                  (Normal (Script.void_reply js_null)) |}
           Script.start (Script.void_reply js_null) Script.start);
    reflexivity.
Defined.

(** Sign-up of "Alice" answered with a session of a user whose metadata is
    the one handed over. *)
Lemma signUp_fullName_round_trip_witness :
  authRepository.signUp Script.granting "alice@unicordoba.edu.co" "Passw0rd"
    "Alice" Script.start
  = (Normal (Success (mapSupabaseSession Script.granted)), Script.start)
  /\ User.fullName (AuthSession.user (mapSupabaseSession Script.granted))
     = Some "Alice".
Proof.
  apply (signUp_fullName_round_trip Script.granting
           "alice@unicordoba.edu.co" "Passw0rd" "Alice" Script.start
           {| SupabaseClient.auth :=
                Script.answering_auth js_null (js_val Script.granted) |}
           Script.start
           (Response.mk {| SessionData.session := js_val Script.granted |}
              js_null)
           Script.start Script.granted);
    reflexivity.
Defined.

(* ===================================================================== *)
(** ** The validation schemas *)
(* ===================================================================== *)





Lemma trimStart_all (s : CodeUnits) :
  Forall (fun c => is_trimmed c = true) s -> trimStart s = [].
Proof. induction 1 as [|c s Hc _ IH]; simpl; [done|]. by rewrite Hc. Qed.

Lemma trim_all (s : CodeUnits) :
  Forall (fun c => is_trimmed c = true) s -> trim s = [].
Proof. intros H. unfold trim. by rewrite (trimStart_all s H). Qed.

Section SchemaBehaviour.
Variable email_test : CodeUnits -> bool.

Lemma safeParse_success_iff {T} (parsed : T * list zod.Issue) (data : T) :
  zod.safeParse parsed = zod.success data
  <-> parsed.2 = [] /\ data = parsed.1.
Proof.
  unfold zod.safeParse. destruct parsed as [d [|issue issues]]; simpl.
  - split; [by intros [= ->] | by intros [_ ->]].
  - split; [done | by intros [? _]].
Qed.

Lemma at_key_nil (key : string) (parsed : CodeUnits * list string) :
  zod.at_key key parsed = [] <-> parsed.2 = [].
Proof.
  unfold zod.at_key. split; [apply fmap_nil_inv | by intros ->].
Qed.

Lemma at_key_path (key : string) (parsed : CodeUnits * list string)
    (issue : zod.Issue) :
  issue ∈ zod.at_key key parsed ->
  zod.path issue = [key] /\ zod.message issue ∈ parsed.2.
Proof.
  unfold zod.at_key. intros (m & -> & Hm)%list_elem_of_fmap. by split.
Qed.

Lemma min_only_issues (n : nat) (message : string) (data : CodeUnits) :
  zod.string_ email_test [zod.min n message] data
  = (data, if decide (length data < n) then [message] else []).
Proof. reflexivity. Qed.

Lemma emailSchema_issues (data : CodeUnits) :
  (zod.string_ email_test Schema.emailSchema data).2 = []
  <-> 1 <= length data /\ email_test data = true.
Proof.
  unfold Schema.emailSchema; simpl.
  destruct (decide (length data < 1)), (email_test data); simpl;
    split; try done; try lia; by intros [? ?]; try lia.
Qed.

Lemma passwordSchema_issues (data : CodeUnits) :
  (zod.string_ email_test Schema.passwordSchema data).2 = []
  <-> 8 <= length data /\ password_pattern_test data = true.
Proof.
  unfold Schema.passwordSchema; simpl.
  destruct (decide (length data < 8)), (password_pattern_test data); simpl;
    split; try done; try lia; by intros [? ?]; try lia.
Qed.

Lemma registerSchema_issues (input : RegisterInput.t) :
  (Schema.registerSchema email_test input).2 = []
  <-> 3 <= length (RegisterInput.fullName input)
      /\ 1 <= length (RegisterInput.email input)
      /\ email_test (RegisterInput.email input) = true
      /\ 8 <= length (RegisterInput.password input)
      /\ password_pattern_test (RegisterInput.password input) = true
      /\ RegisterInput.confirmPassword input = RegisterInput.password input.
Proof.
  destruct input as [fullName email password confirmPassword].
  unfold Schema.registerSchema, zod.refine. cbn [fst snd RegisterInput.password
    RegisterInput.confirmPassword RegisterInput.fullName RegisterInput.email].
  rewrite (min_only_issues 1 _ confirmPassword).
  assert ((zod.string_ email_test Schema.passwordSchema password).1 = password)
    as -> by reflexivity.
  cbn [fst snd].
  pose proof (emailSchema_issues email) as Hemail.
  pose proof (passwordSchema_issues password) as Hpassword.
  destruct (bool_decide_reflect (password = confirmPassword)) as [<-|Hne].
  - rewrite !app_nil, !at_key_nil, Hemail, Hpassword. simpl.
    destruct (decide (length fullName < 3)), (decide (length password < 1));
      simpl; split; try done; try lia; intros; destruct_and?;
      simplify_eq; split_and?; first [done | lia].
  - split; [by intros [_ ?]%app_nil | by intros (_&_&_&_&_&->)].
Qed.

Lemma loginSchema_issues (input : LoginInput.t) :
  (Schema.loginSchema email_test input).2 = []
  <-> 1 <= length (LoginInput.email input)
      /\ email_test (LoginInput.email input) = true
      /\ 1 <= length (LoginInput.password input).
Proof.
  destruct input as [email password].
  unfold Schema.loginSchema. cbn [fst snd LoginInput.email LoginInput.password].
  rewrite (min_only_issues 1 _ password), app_nil, !at_key_nil.
  rewrite emailSchema_issues. simpl.
  destruct (decide (length password < 1)); simpl;
    split; try done; try lia; intros; destruct_and?;
    simplify_eq; split_and?; first [done | lia].
Qed.

Lemma resetPasswordSchema_issues (input : ResetPasswordInput.t) :
  (Schema.resetPasswordSchema email_test input).2 = []
  <-> 8 <= length (ResetPasswordInput.password input)
      /\ password_pattern_test (ResetPasswordInput.password input) = true
      /\ ResetPasswordInput.confirmPassword input
         = ResetPasswordInput.password input.
Proof.
  destruct input as [password confirmPassword].
  unfold Schema.resetPasswordSchema, zod.refine.
  cbn [fst snd ResetPasswordInput.password ResetPasswordInput.confirmPassword].
  rewrite (min_only_issues 1 _ confirmPassword).
  assert ((zod.string_ email_test Schema.passwordSchema password).1 = password)
    as -> by reflexivity.
  cbn [fst snd].
  pose proof (passwordSchema_issues password) as Hpassword.
  destruct (bool_decide_reflect (password = confirmPassword)) as [<-|Hne].
  - rewrite !app_nil, !at_key_nil, Hpassword. simpl.
    destruct (decide (length password < 1));
      simpl; split; try done; try lia; intros; destruct_and?;
      simplify_eq; split_and?; first [done | lia].
  - split; [by intros [_ ?]%app_nil | by intros (_&_&->)].
Qed.


(** X19. The length check of the full name runs before the trimming: a
    full name of three or more white-space code units is accepted, given
    the other fields are, and comes out as the empty string. *)
Theorem registerSchema_blank_fullName (input data : RegisterInput.t)
    (blank : CodeUnits) :
  zod.safeParse (Schema.registerSchema email_test input) = zod.success data ->
  Forall (fun c => is_trimmed c = true) blank ->
  3 <= length blank ->
  zod.safeParse
    (Schema.registerSchema email_test
       {| RegisterInput.fullName := blank;
          RegisterInput.email := RegisterInput.email input;
          RegisterInput.password := RegisterInput.password input;
          RegisterInput.confirmPassword :=
            RegisterInput.confirmPassword input |})
  = zod.success
      {| RegisterInput.fullName := [];
         RegisterInput.email := RegisterInput.email input;
         RegisterInput.password := RegisterInput.password input;
         RegisterInput.confirmPassword :=
           RegisterInput.confirmPassword input |}.
Proof.
  intros [Hok _]%safeParse_success_iff Hblank Hlen.
  apply registerSchema_issues in Hok as (_ & ? & ? & ? & ? & ?).
  apply safeParse_success_iff. split.
  - apply registerSchema_issues. by split_and!.
  - simpl. by rewrite (trim_all blank Hblank).
Qed.

(** X20. What the register form accepts the other forms accept: the email
    and password of an accepted registration pass [loginSchema], and its
    password and confirmation pass [resetPasswordSchema], unchanged. *)
Theorem registerSchema_implies_login_and_reset
    (input data : RegisterInput.t) :
  zod.safeParse (Schema.registerSchema email_test input) = zod.success data ->
  zod.safeParse
    (Schema.loginSchema email_test
       {| LoginInput.email := RegisterInput.email data;
          LoginInput.password := RegisterInput.password data |})
  = zod.success
      {| LoginInput.email := RegisterInput.email data;
         LoginInput.password := RegisterInput.password data |}
  /\ zod.safeParse
       (Schema.resetPasswordSchema email_test
          {| ResetPasswordInput.password := RegisterInput.password data;
             ResetPasswordInput.confirmPassword :=
               RegisterInput.confirmPassword data |})
     = zod.success
         {| ResetPasswordInput.password := RegisterInput.password data;
            ResetPasswordInput.confirmPassword :=
              RegisterInput.confirmPassword data |}.
Proof.
  intros [Hok ->]%safeParse_success_iff.
  apply registerSchema_issues in Hok as (_ & ? & ? & ? & ? & ?).
  split; apply safeParse_success_iff; (split; [|done]).
  - apply loginSchema_issues. simpl. split_and!; [done | done | lia].
  - apply resetPasswordSchema_issues. simpl. by split_and!.
Qed.

(** X21. [registerSchema] and [resetPasswordSchema] report the issue "Las
    contraseñas no coinciden" under the path [confirmPassword] exactly when
    the confirmation differs from the password, whatever else is wrong
    with the input. *)
Theorem confirmPassword_mismatch_reported
    (register : RegisterInput.t) (reset : ResetPasswordInput.t) :
  let noMatch :=
    zod.mkIssue ["confirmPassword"]
      VALIDATION_MESSAGES.confirmPassword.noMatch in
  (noMatch ∈ (Schema.registerSchema email_test register).2
   <-> RegisterInput.password register
       <> RegisterInput.confirmPassword register)
  /\ (noMatch ∈ (Schema.resetPasswordSchema email_test reset).2
      <-> ResetPasswordInput.password reset
          <> ResetPasswordInput.confirmPassword reset).
Proof.
  intros noMatch.
  assert (forall data,
            noMatch ∉ zod.at_key "confirmPassword"
              (zod.string_ email_test
                 [zod.min 1 VALIDATION_MESSAGES.confirmPassword.required] data))
    as Hconfirm.
  { intros data [_ Hm]%at_key_path. rewrite min_only_issues in Hm.
    simpl in Hm. case_decide.
    - apply list_elem_of_singleton in Hm. discriminate Hm.
    - by apply elem_of_nil in Hm. }
  destruct register as [fullName email password confirmPassword].
  destruct reset as [password' confirmPassword'].
  split.
  - unfold Schema.registerSchema, zod.refine.
    cbn [fst snd RegisterInput.password RegisterInput.confirmPassword].
    change (zod.string_ email_test Schema.passwordSchema password).1
      with password.
    change (zod.string_ email_test
              [zod.min 1 VALIDATION_MESSAGES.confirmPassword.required]
              confirmPassword).1 with confirmPassword.
    destruct (bool_decide_reflect (password = confirmPassword)) as [Heq|Hne].
    + split; [|done]. rewrite !elem_of_app.
      intros [[H _]%at_key_path|[[H _]%at_key_path|[[H _]%at_key_path|H]]];
        [done | done | done | by apply Hconfirm in H].
    + split; [done|]. intros _. rewrite elem_of_app. right.
      by apply list_elem_of_singleton.
  - unfold Schema.resetPasswordSchema, zod.refine.
    cbn [fst snd ResetPasswordInput.password
           ResetPasswordInput.confirmPassword].
    change (zod.string_ email_test Schema.passwordSchema password').1
      with password'.
    change (zod.string_ email_test
              [zod.min 1 VALIDATION_MESSAGES.confirmPassword.required]
              confirmPassword').1 with confirmPassword'.
    destruct (bool_decide_reflect (password' = confirmPassword')) as [Heq|Hne].
    + split; [|done]. rewrite !elem_of_app.
      intros [[H _]%at_key_path|H]; [done | by apply Hconfirm in H].
    + split; [done|]. intros _. rewrite elem_of_app. right.
      by apply list_elem_of_singleton.
Qed.
End SchemaBehaviour.



(** The same registration with three spaces as the full name. *)
Lemma registerSchema_blank_fullName_witness :
  zod.safeParse
    (Schema.registerSchema Form.has_at
       {| RegisterInput.fullName := ascii_units "   ";
          RegisterInput.email := RegisterInput.email Form.alice;
          RegisterInput.password := RegisterInput.password Form.alice;
          RegisterInput.confirmPassword :=
            RegisterInput.confirmPassword Form.alice |})
  = zod.success
      {| RegisterInput.fullName := [];
         RegisterInput.email := RegisterInput.email Form.alice;
         RegisterInput.password := RegisterInput.password Form.alice;
         RegisterInput.confirmPassword :=
           RegisterInput.confirmPassword Form.alice |}.
Proof.
  apply (registerSchema_blank_fullName Form.has_at Form.alice Form.alice
           (ascii_units "   ")).
  - reflexivity.
  - repeat constructor.
  - vm_compute; lia.
Defined.

(** The accepted registration, at the login and the reset forms. *)
Lemma registerSchema_implies_login_and_reset_witness :
  zod.safeParse
    (Schema.loginSchema Form.has_at
       {| LoginInput.email := RegisterInput.email Form.alice;
          LoginInput.password := RegisterInput.password Form.alice |})
  = zod.success
      {| LoginInput.email := RegisterInput.email Form.alice;
         LoginInput.password := RegisterInput.password Form.alice |}
  /\ zod.safeParse
       (Schema.resetPasswordSchema Form.has_at
          {| ResetPasswordInput.password := RegisterInput.password Form.alice;
             ResetPasswordInput.confirmPassword :=
               RegisterInput.confirmPassword Form.alice |})
     = zod.success
         {| ResetPasswordInput.password := RegisterInput.password Form.alice;
            ResetPasswordInput.confirmPassword :=
              RegisterInput.confirmPassword Form.alice |}.
Proof.
  apply (registerSchema_implies_login_and_reset Form.has_at Form.alice
           Form.alice).
  reflexivity.
Defined.

(** A mistyped confirmation. *)
Lemma confirmPassword_mismatch_reported_witness :
  zod.mkIssue ["confirmPassword"] VALIDATION_MESSAGES.confirmPassword.noMatch
  ∈ (Schema.registerSchema Form.has_at Form.alice_mistyped).2.
Proof.
  apply (proj2 (proj1 (confirmPassword_mismatch_reported Form.has_at
                         Form.alice_mistyped
                         {| ResetPasswordInput.password := [];
                            ResetPasswordInput.confirmPassword := [] |}))).
  vm_compute. discriminate.
Defined.

(* ===================================================================== *)
(** ** The cookie callback of the server client *)
(* ===================================================================== *)

Section ServerBehaviour.
Context {World CookieOptions : Type}.
Variable cookieStore_set :
  string -> string -> CookieOptions -> Async World unit.

Lemma forEach_app {A} (l1 l2 : list A) (callback : A -> Async World unit)
    rt rt1 :
  server.forEach l1 callback rt = (Normal (), rt1) ->
  server.forEach (l1 ++ l2) callback rt = server.forEach l2 callback rt1.
Proof.
  revert rt. induction l1 as [|x l1 IH]; intros rt; simpl.
  - by intros [= ->].
  - unfold mbind, Async_bind. destruct (callback x rt) as [[[]|e] rt0]; [|done].
    apply IH.
Qed.

(** X22. The [setAll] of the server client never throws, whatever the
    cookie store does. *)
Theorem server_setAll_never_throws
    (cookiesToSet : list (Middleware.CookieToSet CookieOptions))
    (rt : Runtime World) :
  (server.setAll cookieStore_set cookiesToSet rt).1 = Normal ().
Proof.
  unfold server.setAll, try_catch.
  by destruct (server.forEach _ _ rt) as [[[]|e] rt'].
Qed.

(** X23. When the cookie store refuses a cookie, [setAll] stops there
    without a trace: the cookies before it have been written, those after
    it are not attempted, and the call completes normally with nothing
    logged by the callback. *)
Theorem server_setAll_stops_at_first_failure
    (written : list (Middleware.CookieToSet CookieOptions))
    (refused : Middleware.CookieToSet CookieOptions)
    (remaining : list (Middleware.CookieToSet CookieOptions))
    (rt rt1 rt2 : Runtime World) (e : JsException) :
  server.forEach written
    (fun c => cookieStore_set (Middleware.name c) (Middleware.value c)
                (Middleware.options c)) rt
  = (Normal (), rt1) ->
  cookieStore_set (Middleware.name refused) (Middleware.value refused)
    (Middleware.options refused) rt1
  = (Throw e, rt2) ->
  server.setAll cookieStore_set (written ++ refused :: remaining) rt
  = (Normal (), rt2).
Proof.
  intros Hwritten Hrefused. unfold server.setAll, try_catch.
  rewrite (forEach_app _ _ _ _ _ Hwritten). simpl.
  unfold mbind, Async_bind. by rewrite Hrefused.
Qed.
End ServerBehaviour.

(** Three cookies, the second of which the store refuses. *)
Lemma server_setAll_stops_at_first_failure_witness :
  server.setAll server.picky_set
    [ Middleware.mkCookie "sb-access" "t1" "path=/";
      Middleware.mkCookie "readonly" "x" "path=/";
      Middleware.mkCookie "sb-refresh" "r1" "path=/" ]
    (mkRuntime [] [])
  = (Normal (), mkRuntime [("sb-access", "t1")] []).
Proof.
  apply (server_setAll_stops_at_first_failure server.picky_set
           [Middleware.mkCookie "sb-access" "t1" "path=/"]
           (Middleware.mkCookie "readonly" "x" "path=/")
           [Middleware.mkCookie "sb-refresh" "r1" "path=/"]
           (mkRuntime [] []) (mkRuntime [("sb-access", "t1")] [])
           (mkRuntime [("sb-access", "t1")] [])
           (mkException "Error"
              "Cookies can only be modified in a Server Action"));
    reflexivity.
Defined.
